(** * Hybrid recipe retrieval: vector store and retriever

    A shallow embedding of [vector_store.py] (class [VectorStore]) and
    [retriever.py] (class [Retriever]), and the properties of the
    retrieval engine proved over it.

    Conventions of the embedding.
    - A Python [str] is a [string]; every character stands for the code
      point of the same number, so the texts covered are those with code
      points below 256.
    - A Python [int] (and a numpy [int64] row id) is a [Z].
    - A raised exception is the [Raise] case of [res].
    - The sentence-transformer is a function [encode] from texts to
      vectors and the squared L2 distance of FAISS is a function [l2];
      only the order of distances is ever observed, so distances are
      taken in [Z].
    - The logger is the [log] field of the [World]; the directory listing
      of the recipe directory and the node at the index path are its
      other two fields. *)

From Stdlib Require Import ZArith Ascii String.
From stdpp Require Import gmap strings list.

Local Open Scope Z_scope.

(** ** Python primitives *)

Module Py.

Inductive exn : Type :=
| IndexError
| AssertionError
| FileExistsError
| FileNotFoundError
| RuntimeError.

Inductive res (A : Type) : Type :=
| Ok (a : A)
| Raise (e : exn).
Global Arguments Ok {A} a.
Global Arguments Raise {A} e.

Definition bind {A B : Type} (m : res A) (f : A → res B) : res B :=
  match m with
  | Ok a => f a
  | Raise e => Raise e
  end.

(** [[f(x) for x in l]] where [f] may raise: the first exception wins. *)
Fixpoint for_each {A B : Type} (f : A → res B) (l : list A) : res (list B) :=
  match l with
  | [] => Ok []
  | x :: l' =>
      bind (f x) (λ y, bind (for_each f l') (λ ys, Ok (y :: ys)))
  end.

(** [l[i]]: negative subscripts count from the end, anything outside
    [-len(l) <= i < len(l)] raises [IndexError]. *)
Definition getitem {A : Type} (l : list A) (i : Z) : res A :=
  let n := Z.of_nat (length l) in
  let j := if i <? 0 then n + i else i in
  if (0 <=? j) && (j <? n) then
    match l !! Z.to_nat j with
    | Some x => Ok x
    | None => Raise IndexError
    end
  else Raise IndexError.

(** [str.isspace] on one character, for code points below 256. *)
Definition isspace (c : ascii) : bool :=
  let n := Z.of_N (N_of_ascii c) in
  ((9 <=? n) && (n <=? 13)) || ((28 <=? n) && (n <=? 32))
  || (n =? 133) || (n =? 160).

Fixpoint lstrip (s : string) : string :=
  match s with
  | EmptyString => EmptyString
  | String c s' => if isspace c then lstrip s' else s
  end.

Fixpoint rstrip (s : string) : string :=
  match s with
  | EmptyString => EmptyString
  | String c s' =>
      match rstrip s' with
      | EmptyString => if isspace c then EmptyString else String c EmptyString
      | t => String c t
      end
  end.

(** [s.strip()] *)
Definition strip (s : string) : string := rstrip (lstrip s).

(** [s.startswith(p)] *)
Fixpoint startswith (s p : string) : bool :=
  match p, s with
  | EmptyString, _ => true
  | String _ _, EmptyString => false
  | String a p', String b s' => if Ascii.eqb a b then startswith s' p' else false
  end.

(** [s[n:]] and [s[:n]] for [n >= 0]. *)
Fixpoint drop (n : nat) (s : string) : string :=
  match n, s with
  | O, _ => s
  | S _, EmptyString => EmptyString
  | S n', String _ s' => drop n' s'
  end.

Fixpoint take (n : nat) (s : string) : string :=
  match n, s with
  | O, _ => EmptyString
  | S _, EmptyString => EmptyString
  | S n', String c s' => String c (take n' s')
  end.

(** What a file opened with [open(path, "r")] yields for the decoded
    text [raw] of the file: in text mode the line ends CR LF and CR are
    translated to LF before anything is returned. *)
Fixpoint universal_newlines (raw : string) : string :=
  match raw with
  | EmptyString => EmptyString
  | String c rest =>
      if Ascii.eqb c "013" then
        match rest with
        | String d rest' =>
            if Ascii.eqb d "010" then String "010" (universal_newlines rest')
            else String "010" (universal_newlines rest)
        | EmptyString => String "010" EmptyString
        end
      else String c (universal_newlines rest)
  end.

(** [f.readline()] on the unread, translated text of a file opened in
    text mode: the line up to and including its newline, and what is
    left for [f.read()]. *)
Fixpoint readline (s : string) : string * string :=
  match s with
  | EmptyString => (EmptyString, EmptyString)
  | String c s' =>
      if Ascii.eqb c "010" then (String c EmptyString, s')
      else let '(line, rest) := readline s' in (String c line, rest)
  end.

(** [s.split(sep, 1)] for a one-character separator. *)
Fixpoint split1 (sep : ascii) (s : string) : list string :=
  match s with
  | EmptyString => [EmptyString]
  | String c s' =>
      if Ascii.eqb c sep then [EmptyString; s']
      else match split1 sep s' with
           | h :: t => String c h :: t
           | [] => []
           end
  end.

(** [sep.join(parts)] *)
Fixpoint join (sep : string) (parts : list string) : string :=
  match parts with
  | [] => EmptyString
  | [p] => p
  | p :: ps => p +:+ sep +:+ join sep ps
  end.

(** Truth value of a [str]. *)
Definition nonempty (s : string) : bool :=
  match s with
  | EmptyString => false
  | String _ _ => true
  end.

(** The text after the leftmost occurrence of [pat] in [s], as
    [re.search] of a literal finds it. *)
Fixpoint find_after (pat s : string) : option string :=
  if startswith s pat then Some (drop (String.length pat) s)
  else match s with
       | EmptyString => None
       | String _ s' => find_after pat s'
       end.

(** [s.endswith(suf)] *)
Definition endswith (s suf : string) : bool :=
  let n := String.length s in
  let m := String.length suf in
  (m <=? n)%nat && String.eqb (drop (n - m) s) suf.

(** [sub in s] *)
Definition contains (s sub : string) : bool :=
  match find_after sub s with
  | Some _ => true
  | None => false
  end.

End Py.

Import Py.

(** [res] with stdpp's monad notations: [x ← m; k] runs [k] when [m]
    returns and propagates the exception when it raises. *)
#[global] Instance res_ret : MRet res := λ A a, Ok a.
#[global] Instance res_bind : MBind res := λ A B f m, Py.bind m f.

(** ** FAISS: a flat L2 index behind an id map *)

Module Faiss.
(** [IndexIDMap(IndexFlatL2(d))]: the rows in the order they were
    added, each with its external id. *)
Abbreviation index V := (list (Z * V)).

Section Flat.
Context {V : Type}.
Variable l2 : V → V → Z.

Definition ntotal (idx : index V) : Z := Z.of_nat (length idx).

(** [index.add_with_ids(vectors, ids)] *)
Definition add_with_ids (idx : index V) (vectors : list V) (ids : list Z) : index V :=
  idx ++ zip ids vectors.

(** One hit is an id with its distance to the query. Hits are kept
    by ascending distance; among equal distances the row added
    first comes first. *)
Fixpoint insert_hit (h : Z * Z) (hs : list (Z * Z)) : list (Z * Z) :=
  match hs with
  | [] => [h]
  | h' :: hs' =>
      if h.2 <=? h'.2 then h :: h' :: hs' else h' :: insert_hit h hs'
  end.

Definition ranked (idx : index V) (q : V) : list (Z * Z) :=
  foldr (λ row hs, insert_hit (row.1, l2 q row.2) hs) [] idx.

(** [index.search(q, k)] for one query vector: the labels of the [k]
    nearest rows, filled up with [-1] when the index has fewer than
    [k] rows. The Python wrapper asserts [k > 0]. The two result
    arrays of [k] entries are taken to fit in memory: a bound so large
    that they cannot be allocated makes the library raise instead. *)
Definition search (idx : index V) (q : V) (k : Z) : res (list Z) :=
  if k <=? 0 then Raise AssertionError
  else
    let labels := (λ h : Z * Z, h.1) <$> ranked idx q in
    Ok (List.firstn (Z.to_nat k) (labels ++ replicate (Z.to_nat k) (-1))).
End Flat.
End Faiss.

(** ** Documents, log records and the world outside the store *)

Record Metadata : Type := {
  cwe : string;
  tags : list string;
  languages : list string
}.

Record Document : Type := {
  metadata : Metadata;
  content : string
}.

(** What [LOGGER.info] and [LOGGER.warning] are called with: the level
    and the message, the latter by its kind and its arguments. *)
Inductive level : Type := INFO | WARNING.

Inductive message : Type :=
| Loading_existing_vector_store
| Building_new_vector_store
| No_recipes_found
| Found_recipe_files (n : nat)
| Processing (name : string)
| Skipping (name : string).

Definition log_record : Type := level * message.

(** The messages logged at level [WARNING], in order. *)
Definition warnings (lg : list log_record) : list message :=
  omap (λ r : log_record, match r.1 with WARNING => Some r.2 | INFO => None end) lg.

(** ** The document parser *)

(** [recipe_dir.glob("*.txt")] over the listing of the recipe directory:
    the regular files whose name ends in [.txt], each with its decoded
    text, in listing order. *)
Definition glob_txt (listing : list (string * string)) : list (string * string) :=
  List.filter (λ f : string * string, endswith f.1 ".txt") listing.

(** The loop of [_parse_recipes]: [lg] and [docs] are the log and the
    list [docs] as they stand before the files left are processed. *)
Fixpoint parse_loop (recipe_files : list (string * string))
    (lg : list log_record) (docs : list Document)
    : list log_record * res (list Document) :=
  match recipe_files with
  | [] => (lg, Ok docs)
  | (name, text) :: rest =>
      let lg := lg ++ [(INFO, Processing name)] in
      let '(line, remainder) := readline (universal_newlines text) in
      let first_line := strip line in
      if negb (startswith first_line "cwe:") then
        parse_loop rest (lg ++ [(WARNING, Skipping name)]) docs
      else
        match getitem (split1 ":" first_line) 1 with
        | Raise e => (lg, Raise e)
        | Ok field =>
            let cwe_id := strip field in
            let content := remainder in
            let metadata := {| cwe := cwe_id; tags := []; languages := [] |} in
            parse_loop rest lg (docs ++ [{| metadata := metadata; content := content |}])
        end
  end.

Definition _parse_recipes (listing : list (string * string))
    : list log_record * res (list Document) :=
  let recipe_files := glob_txt listing in
  parse_loop recipe_files [(INFO, Found_recipe_files (length recipe_files))] [].

(** ** The context extractor ([Retriever._extract_focused_context]) *)

Definition sentinel : string := "No specific guidance found.".

Definition newline : ascii := "010".

(** [[A-Z]] *)
Definition is_upper (c : ascii) : bool :=
  let n := Z.of_N (N_of_ascii c) in (65 <=? n) && (n <=? 90).

(** Whether [\n\n[A-Z]] matches at the head of [s]. *)
Definition section_break (s : string) : bool :=
  match s with
  | String a (String b (String c _)) =>
      Ascii.eqb a newline && Ascii.eqb b newline && is_upper c
  | _ => false
  end.

(** The group of a lazy any-character run (with [re.DOTALL]) that must be
    followed by [\n\n[A-Z]] or by the end of the text, matched at the
    head of [s]: the shortest text followed by a section break or by the
    end of [s]. *)
Fixpoint lazy_block (s : string) : string :=
  match s with
  | EmptyString => EmptyString
  | String c s' => if section_break s then EmptyString else String c (lazy_block s')
  end.

(** The group of a greedy any-character run without [re.DOTALL], matched
    at the head of [s]: the text up to the next newline. *)
Fixpoint rest_of_line (s : string) : string :=
  match s with
  | EmptyString => EmptyString
  | String c s' => if Ascii.eqb c newline then EmptyString else String c (rest_of_line s')
  end.

Definition _extract_focused_context (content : string) : string :=
  let name_match := rest_of_line <$> find_after "name: " content in
  let description_match := lazy_block <$> find_after "Short Description:" content in
  let checklist_match := lazy_block <$> find_after "Secure Coding Checklist:" content in
  let fix_idea_match :=
    (λ tail, "Sample Fix Idea" +:+ tail) <$> find_after "Sample Fix Idea" content in
  let name := from_option strip "" name_match in
  let description := from_option strip "" description_match in
  let checklist := from_option strip "" checklist_match in
  let fix_idea := from_option strip "" fix_idea_match in
  let parts := [] in
  let parts := if nonempty name then parts ++ ["**" +:+ name +:+ "**"] else parts in
  let parts := if nonempty description then parts ++ [description] else parts in
  let parts :=
    if nonempty checklist
    then parts ++ ["**Checklist:**" +:+ String newline checklist] else parts in
  let parts :=
    if nonempty fix_idea
    then parts ++ ["**Fix Idea:**" +:+ String newline fix_idea] else parts in
  match parts with
  | [] => sentinel
  | _ => join (String newline (String newline "")) parts
  end.

(** ** The store and the retriever *)

Inductive store_call : Type :=
| Call_search_cwe (cwe_id : string) (k : Z)
| Call_search_full_text (query : string) (k : Z)
    (filter_metadata : option (gmap string string)).

Section Store.
Context {V : Type}.
Variable encode : string → V.
Variable l2 : V → V → Z.

(** The fields of a [VectorStore] object once [__init__] has returned;
    [None] is an index that was never created. *)
Record VectorStore : Type := {
  cwe_index : option (Faiss.index V);
  full_text_index : option (Faiss.index V);
  documents : list Document
}.

(** What a file under the index path holds: [faiss.write_index] and
    [np.save] followed by [faiss.read_index] and [np.load(...).tolist()]
    give back the value written. *)
Inductive blob : Type :=
| Index_blob (idx : Faiss.index V)
| Array_blob (docs : list Document).

(** What is found at [index_path], when something is. *)
Inductive node : Type :=
| Regular_file
| Directory (entries : gmap string blob).

(** The world around the store: the listing of [recipe_dir] (name and
    decoded characters of each regular file, in the order the directory
    is listed; line ends are translated when a file is read), the node
    at [index_path] if there is one, and what has been logged so far. *)
Record World : Type := {
  recipe_dir : list (string * string);
  index_path : option node;
  log : list log_record
}.

Definition logging (rs : list log_record) (w : World) : World :=
  {| recipe_dir := recipe_dir w; index_path := index_path w; log := log w ++ rs |}.

Definition with_index_path (n : node) (w : World) : World :=
  {| recipe_dir := recipe_dir w; index_path := Some n; log := log w |}.

Definition read_index (entries : gmap string blob) (name : string)
    : res (Faiss.index V) :=
  match entries !! name with
  | Some (Index_blob idx) => Ok idx
  | _ => Raise RuntimeError
  end.

Definition np_load (entries : gmap string blob) (name : string)
    : res (list Document) :=
  match entries !! name with
  | Some (Array_blob docs) => Ok docs
  | Some (Index_blob _) => Raise RuntimeError
  | None => Raise FileNotFoundError
  end.

(** [index_path.mkdir(exist_ok=True)]: the entries of the directory
    afterwards. *)
Definition mkdir_exist_ok (n : option node) : res (gmap string blob) :=
  match n with
  | None => Ok ∅
  | Some (Directory entries) => Ok entries
  | Some Regular_file => Raise FileExistsError
  end.

(** [np.arange(len(embeddings))] labels the rows 0, 1, ... *)
Definition _create_index (embeddings : list V) : Faiss.index V :=
  let index : Faiss.index V := [] in
  Faiss.add_with_ids index embeddings (seqZ 0 (Z.of_nat (length embeddings))).

(** The store that [_build_indexes] leaves in [self], or the exception
    it raises, and the world afterwards. *)
Definition _build_indexes (w : World) : res VectorStore * World :=
  let '(lg, parsed) := _parse_recipes (recipe_dir w) in
  let w := logging lg w in
  match parsed with
  | Raise e => (Raise e, w)
  | Ok [] =>
      (Ok {| cwe_index := None; full_text_index := None; documents := [] |},
       logging [(WARNING, No_recipes_found)] w)
  | Ok docs =>
      let cwe_embeddings := encode <$> ((λ doc, cwe (metadata doc)) <$> docs) in
      let full_text_embeddings := encode <$> ((λ doc, content doc) <$> docs) in
      let ci := _create_index cwe_embeddings in
      let fi := _create_index full_text_embeddings in
      match mkdir_exist_ok (index_path w) with
      | Raise e => (Raise e, w)
      | Ok entries =>
          let entries := <["cwe.index" := Index_blob ci]> entries in
          let entries := <["full_text.index" := Index_blob fi]> entries in
          let entries := <["documents.npy" := Array_blob docs]> entries in
          (Ok {| cwe_index := Some ci; full_text_index := Some fi; documents := docs |},
           with_index_path (Directory entries) w)
      end
  end.

(** [VectorStore(...)]: all of [__init__] that touches the world. *)
Definition _load_or_build (w : World) : res VectorStore * World :=
  match index_path w with
  | Some (Directory entries) =>
      let w := logging [(INFO, Loading_existing_vector_store)] w in
      (ci ← read_index entries "cwe.index";
       fi ← read_index entries "full_text.index";
       docs ← np_load entries "documents.npy";
       mret {| cwe_index := Some ci; full_text_index := Some fi; documents := docs |},
       w)
  | _ => _build_indexes (logging [(INFO, Building_new_vector_store)] w)
  end.

(** *** Searches *)

Definition search_cwe (self : VectorStore) (cwe_id : string) (k : Z)
    : res (list Document) :=
  match cwe_index self with
  | None => Ok []
  | Some index =>
      let query_vector := encode cwe_id in
      indices ← Faiss.search l2 index query_vector k;
      for_each (getitem (documents self))
        (List.filter (λ i, negb (i =? -1)) indices)
  end.

(** [language in documents[i]["metadata"].get("languages", [])] for a
    subscript [i] of [range(len(documents))]. *)
Definition has_language (docs : list Document) (language : string) (i : Z) : bool :=
  match docs !! Z.to_nat i with
  | Some doc => bool_decide (language ∈ languages (metadata doc))
  | None => false
  end.

(** The list [candidate_indices] as it stands when the index is searched. *)
Definition candidate_indices (docs : list Document)
    (filter_metadata : option (gmap string string)) : list Z :=
  let candidate_indices := seqZ 0 (Z.of_nat (length docs)) in
  match filter_metadata with
  | None => candidate_indices
  | Some fm =>
      if bool_decide (fm = ∅) then candidate_indices
      else
        match fm !! "language" with
        | Some language => List.filter (has_language docs language) candidate_indices
        | None => candidate_indices
        end
  end.

(** The loop over [indices[0]]; [results] is the list built so far. *)
Fixpoint collect (docs : list Document) (candidates : list Z) (k : Z)
    (indices : list Z) (results : list Document) : res (list Document) :=
  match indices with
  | [] => Ok results
  | i :: rest =>
      if bool_decide (i ∈ candidates) then
        doc ← getitem docs i;
        let results := results ++ [doc] in
        if Z.of_nat (length results) =? k then Ok results
        else collect docs candidates k rest results
      else collect docs candidates k rest results
  end.

Definition search_full_text (self : VectorStore) (query : string) (k : Z)
    (filter_metadata : option (gmap string string)) : res (list Document) :=
  match full_text_index self with
  | None => Ok []
  | Some index =>
      let query_vector := encode query in
      let candidates := candidate_indices (documents self) filter_metadata in
      match candidates with
      | [] => Ok []
      | _ =>
          indices ← Faiss.search l2 index query_vector (Z.of_nat (length candidates));
          collect (documents self) candidates k indices []
      end
  end.

(** *** [Retriever.retrieve] *)

(** The last two statements of [retrieve]. *)
Definition focused (raw_content : string) : string :=
  if nonempty raw_content then _extract_focused_context raw_content else sentinel.

(** [retrieve] returns, next to its result, the calls it made on the
    store, in order. *)
Definition retrieve (vector_store : VectorStore) (cwe language code : string)
    : list store_call * res string :=
  let tier1 := Call_search_cwe cwe 1 in
  match search_cwe vector_store cwe 1 with
  | Raise e => ([tier1], Raise e)
  | Ok (hit :: _) => ([tier1], Ok (focused (content hit)))
  | Ok [] =>
      let query := language +:+ " " +:+ cwe +:+ " " +:+ take 500 code in
      let filter_metadata : option (gmap string string) :=
        Some {["language" := language]} in
      let tier2 := Call_search_full_text query 1 filter_metadata in
      match search_full_text vector_store query 1 filter_metadata with
      | Raise e => ([tier1; tier2], Raise e)
      | Ok (hit :: _) => ([tier1; tier2], Ok (focused (content hit)))
      | Ok [] => ([tier1; tier2], Ok (focused ""))
      end
  end.

End Store.

Arguments cwe_index {V} _.
Arguments full_text_index {V} _.
Arguments documents {V} _.

(** ** Definitions used by the statements *)

(** The header test of [_parse_recipes] on one file of the listing. *)
Definition has_cwe_header (f : string * string) : bool :=
  startswith (strip (readline (universal_newlines f.2)).1) "cwe:".

(** The document a file with a [cwe:] header is parsed into. *)
Definition document_of (f : string * string) : Document :=
  {| metadata :=
       {| cwe := strip (drop 4 (strip (readline (universal_newlines f.2)).1));
          tags := []; languages := [] |};
     content := (readline (universal_newlines f.2)).2 |}.

(** The log records one file leaves behind. *)
Definition file_log (f : string * string) : list log_record :=
  (INFO, Processing f.1)
  :: (if has_cwe_header f then [] else [(WARNING, Skipping f.1)]).

(** Follows the spec's words: the first line matches [weakness: <id>]. *)
Definition spec_weakness_header (f : string * string) : bool :=
  startswith (readline (universal_newlines f.2)).1 "weakness: ".

(** Two recipe files: one headed as the spec words it, one headed as the
    parser reads it. *)
Definition xss_with_weakness_header : string * string :=
  ("xss.txt", "weakness: CWE-79
name: XSS
").

Definition sqli_with_cwe_header : string * string :=
  ("sqli.txt", "cwe: CWE-89
name: SQLi
").

(** The query of the fallback search. *)
Definition tier2_query (cwe language code : string) : string :=
  language +:+ " " +:+ cwe +:+ " " +:+ take 500 code.

Section Shapes.
Context {V : Type}.
Variable encode : string → V.
Variable l2 : V → V → Z.

(** Whether [index_path.exists() and index_path.is_dir()]. *)
Definition is_snapshot (n : option (node (V:=V))) : bool :=
  match n with
  | Some (Directory _) => true
  | _ => false
  end.

(** The store without indices, and the store with both indices over
    the documents [docs]. *)
Definition empty_store : VectorStore (V:=V) :=
  {| cwe_index := None; full_text_index := None; documents := [] |}.

Definition indexed_store (docs : list Document) : VectorStore (V:=V) :=
  {| cwe_index :=
       Some (_create_index (encode <$> ((λ doc, cwe (metadata doc)) <$> docs)));
     full_text_index :=
       Some (_create_index (encode <$> ((λ doc, content doc) <$> docs)));
     documents := docs |}.

(** The three files a build over the documents [docs] writes. *)
Definition snapshot_of (docs : list Document) : gmap string (blob (V:=V)) :=
  <["documents.npy" := Array_blob docs]>
    (<["full_text.index" :=
         Index_blob (_create_index (encode <$> ((λ doc, content doc) <$> docs)))]>
       (<["cwe.index" :=
            Index_blob
              (_create_index (encode <$> ((λ doc, cwe (metadata doc)) <$> docs)))]>
          ∅)).

(** A world with that snapshot at the index path and no recipe file. *)
Definition world_with_snapshot (docs : list Document) : World (V:=V) :=
  {| recipe_dir := []; index_path := Some (Directory (snapshot_of docs)); log := [] |}.

(** Follows the spec's words: the [k] nearest members of the candidate
    set, that is, the documents of the first [k] rows, by ascending
    distance to the query, among the rows whose label is a candidate. *)
Definition k_nearest_candidates (s : VectorStore (V:=V)) (query : string) (k : Z)
    (filter_metadata : option (gmap string string)) : list Document :=
  match full_text_index s with
  | None => []
  | Some index =>
      let candidates := candidate_indices (documents s) filter_metadata in
      let hits :=
        List.filter (λ h : Z * Z, bool_decide (h.1 ∈ candidates))
          (Faiss.ranked l2 index (encode query)) in
      omap (λ h : Z * Z, documents s !! Z.to_nat h.1) (List.firstn (Z.to_nat k) hits)
  end.

(** A recipe directory holding one file, and no snapshot. *)
Definition world_with_recipe (name text : string) : World (V:=V) :=
  {| recipe_dir := [(name, text)]; index_path := None; log := [] |}.

(** The world [w] after the recipe directory has become [listing]. *)
Definition with_recipes (listing : list (string * string)) (w : World (V:=V))
    : World (V:=V) :=
  {| recipe_dir := listing; index_path := index_path w; log := log w |}.

(** The node [n] is a directory whose three snapshot files hold the two
    indices and the documents of the store [s]. *)
Definition holds_snapshot_of (n : option (node (V:=V))) (s : VectorStore (V:=V))
    : Prop :=
  ∃ (entries : gmap string blob) (ci fi : Faiss.index V),
    n = Some (Directory entries)
    ∧ cwe_index s = Some ci ∧ full_text_index s = Some fi
    ∧ entries !! "cwe.index" = Some (Index_blob ci)
    ∧ entries !! "full_text.index" = Some (Index_blob fi)
    ∧ entries !! "documents.npy" = Some (Array_blob (documents s)).

(** A store whose weakness index has no row, beside a full-text index
    over its only document: what a snapshot directory with such a
    [cwe.index] file loads as. *)
Definition store_without_weakness_rows (d : Document) : VectorStore (V:=V) :=
  {| cwe_index := Some [];
     full_text_index := Some (_create_index [encode (content d)]);
     documents := [d] |}.

End Shapes.

(** Texts are embedded by their length; a stand-in for the
    sentence-transformer wherever a statement is tried on a concrete store. *)
Definition length_encode (s : string) : Z := Z.of_nat (String.length s).
Definition square_distance (a b : Z) : Z := (a - b) * (a - b).

(** Scenario A: the body of the recipe and the context expected for it. *)
Definition scenario_a_body : string :=
"name: SQLi

Short Description:
Use parameterized queries.

Secure Coding Checklist:
- validate input

Sample Fix Idea
Use prepared statements.
".



(** The ways the recipe of scenario A may be written: how its lines end,
    and whether the text of a block starts on the line of its label or
    on the next line. *)
Inductive line_end : Type := LF | CRLF | CR.


Definition eol (e : line_end) : string :=
  match e with
  | LF => String "010" ""
  | CRLF => String "013" (String "010" "")
  | CR => String "013" ""
  end.



(** Scenario A with a blank line between the label of the description
    and its text. *)
Definition scenario_a_recipe_with_blank_line : string :=
"cwe: CWE-89
name: SQLi

Short Description:

Use parameterized queries.

Secure Coding Checklist:
- validate input

Sample Fix Idea
Use prepared statements.
".

(** Scenario C: the only document of the store and the context
    extracted from its content. *)
Definition python_xss_document : Document :=
  {| metadata := {| cwe := "CWE-79"; tags := []; languages := ["python"] |};
     content := "name: XSS

Short Description:
Escape output.
" |}.

Definition python_xss_context : string :=
"**XSS**

Escape output.".

(** Two documents in different languages, the second with the shorter
    content. *)
Definition java_far_document : Document :=
  {| metadata := {| cwe := "CWE-89"; tags := []; languages := ["java"] |};
     content := "name: SQL injection" |}.

Definition python_near_document : Document :=
  {| metadata := {| cwe := "CWE-79"; tags := []; languages := ["python"] |};
     content := "name: XSS" |}.

(** * The code around the engine *)

From Stdlib Require Import DecimalString.

(** ** More Python primitives *)

(** [str.lower] on one character, for code points below 256: the
    letters A to Z and the capital letters of Latin-1. *)
Definition lower_char (c : ascii) : ascii :=
  let n := N_of_ascii c in
  if ((65 <=? n) && (n <=? 90))%N
     || ((192 <=? n) && (n <=? 222) && negb (n =? 215))%N
  then ascii_of_N (n + 32) else c.

(** [s.lower()] *)
Fixpoint lower (s : string) : string :=
  match s with
  | EmptyString => EmptyString
  | String c s' => String (lower_char c) (lower s')
  end.

(** [s.split(sep, 1)[0]]: the text before the leftmost occurrence of
    [sep], all of [s] when there is none. *)
Fixpoint split_first (sep s : string) : string :=
  if startswith s sep then EmptyString
  else match s with
       | EmptyString => EmptyString
       | String c s' => String c (split_first sep s')
       end.

(** [str(n)] for an [int]. *)
Definition str_int (n : Z) : string := NilZero.string_of_int (Z.to_int n).

(** [d.get(key, default)] on a dictionary of strings. *)
Definition dict_get (d : gmap string string) (key default : string) : string :=
  match d !! key with
  | Some value => value
  | None => default
  end.

(** [l.index(x)]; [None] stands for the [ValueError] raised when [x] is
    not in [l]. *)
Fixpoint list_index (l : list string) (x : string) : option nat :=
  match l with
  | [] => None
  | y :: l' => if String.eqb y x then Some O else S <$> list_index l' x
  end.

(** Predicates on texts used in the statements: only whitespace; a last
    character that is not whitespace; no backquote. *)
Fixpoint all_space (s : string) : bool :=
  match s with
  | EmptyString => true
  | String c s' => isspace c && all_space s'
  end.

Fixpoint ends_nonspace (s : string) : bool :=
  match s with
  | EmptyString => false
  | String c EmptyString => negb (isspace c)
  | String _ s' => ends_nonspace s'
  end.

(** [line] is a first line before [rest]: it ends at its only line
    break, or it has none and nothing follows. *)
Fixpoint is_first_line (line rest : string) : bool :=
  match line with
  | EmptyString => negb (nonempty rest)
  | String c l =>
      if Ascii.eqb c "010" then negb (nonempty l) else is_first_line l rest
  end.

Fixpoint no_carriage_return (s : string) : bool :=
  match s with
  | EmptyString => true
  | String c s' => negb (Ascii.eqb c "013") && no_carriage_return s'
  end.

Fixpoint no_backquote (s : string) : bool :=
  match s with
  | EmptyString => true
  | String c s' => negb (Ascii.eqb c "`") && no_backquote s'
  end.

(** ** [ollama._parse_response_json] *)

Definition fence : string := "```".

Section Ollama.
Context {R : Type}.

(** [json.loads], with whatever it returns or raises. *)
Variable json_loads : string → R.

Definition _parse_response_json (raw_text : string) : R :=
  let cleaned := strip raw_text in
  let cleaned :=
    if startswith cleaned fence then
      let cleaned := drop 3 cleaned in
      let cleaned :=
        if startswith (lower cleaned) "json" then drop 4 cleaned else cleaned in
      let cleaned := split_first fence cleaned in
      strip cleaned
    else cleaned in
  json_loads cleaned.

End Ollama.

(** ** [main.build_user_prompt] *)

Definition line_break : string := String newline "".

(** The payload is a dictionary whose values are strings, as the
    request model of the API makes it. *)
Definition build_user_prompt (payload : gmap string string) (context : string)
    : string :=
  let language := dict_get payload "language" "unknown language" in
  let cwe := dict_get payload "cwe" "unspecified CWE" in
  let code := strip (dict_get payload "code" "") in
  "Analyze the following vulnerable " +:+ language
    +:+ " code snippet, flagged as " +:+ cwe +:+ "." +:+ line_break +:+ line_break
    +:+ "Relevant Guidance:" +:+ line_break +:+ "---" +:+ line_break
    +:+ context +:+ line_break +:+ "---" +:+ line_break +:+ line_break
    +:+ "Vulnerable Code:" +:+ line_break +:+ code.

(** ** [toolkit.log_metrics] *)

(** What [datetime.utcnow()] returns, to the second. *)
Record datetime : Type := {
  year : nat; month : nat; day : nat;
  hour : nat; minute : nat; second : nat
}.

Definition digits (n : nat) : string := NilZero.string_of_uint (Nat.to_uint n).

(** [%02d] and [%04d]. *)
Definition pad2 (n : nat) : string :=
  if (n <? 10)%nat then "0" +:+ digits n else digits n.

Definition pad4 (n : nat) : string :=
  if (n <? 10)%nat then "000" +:+ digits n
  else if (n <? 100)%nat then "00" +:+ digits n
  else if (n <? 1000)%nat then "0" +:+ digits n
  else digits n.

(** [dt.isoformat(timespec="seconds")] of a naive [datetime]. *)
Definition isoformat (dt : datetime) : string :=
  pad4 (year dt) +:+ "-" +:+ pad2 (month dt) +:+ "-" +:+ pad2 (day dt)
    +:+ "T" +:+ pad2 (hour dt) +:+ ":" +:+ pad2 (minute dt)
    +:+ ":" +:+ pad2 (second dt).

(** The line terminator of the [csv] writer. *)
Definition crlf : string := String "013" (String "010" "").

(** [writer.writeheader()] and [writer.writerow(...)] for the four
    fields of [log_metrics]; no field holds a delimiter, a quote or a
    line break, so the writer quotes nothing. *)
Definition csv_header : string :=
  "timestamp,input_tokens,output_tokens,latency_ms" +:+ crlf.

Definition csv_row (now : datetime) (input_tokens output_tokens latency_ms : Z)
    : string :=
  isoformat now +:+ "," +:+ str_int input_tokens +:+ "," +:+ str_int output_tokens
    +:+ "," +:+ str_int latency_ms +:+ crlf.

(** What a path of the file system designates. *)
Inductive fs_node : Type :=
| Fs_file (content : string)
| Fs_dir.

(** The record [LOGGER.info] is called with: the three numbers. *)
Record metrics_record : Type := {
  tokens_in : Z; tokens_out : Z; latency : Z
}.

(** The files by path and the records of the [local_fix] logger. *)
Record MetricsWorld : Type := {
  files : gmap string fs_node;
  metrics_log : list metrics_record
}.

Inductive open_error : Type :=
| IsADirectoryError
| Open_FileNotFoundError
| Open_NotADirectoryError.

(** Paths are written with [/], without [.] or [..] components and
    without doubled or trailing slashes, and the keys of [files] are
    such paths; a path without a slash is in the working directory,
    which exists, as does the root. *)

(** The directories a path goes through, outermost first; [seen] is the
    part of the path already walked. *)
Fixpoint ancestors (seen path : string) : list string :=
  match path with
  | EmptyString => []
  | String c rest =>
      if Ascii.eqb c "/" then
        (if nonempty seen then [seen] else []) ++ ancestors (seen +:+ "/") rest
      else ancestors (seen +:+ String c "") rest
  end.

(** The first of these that is not a directory decides the error. *)
Fixpoint walk (fs : gmap string fs_node) (dirs : list string) : option open_error :=
  match dirs with
  | [] => None
  | dir :: rest =>
      match fs !! dir with
      | Some Fs_dir => walk fs rest
      | Some (Fs_file _) => Some Open_NotADirectoryError
      | None => Some Open_FileNotFoundError
      end
  end.

(** What stops [open(path, "a")] from creating a file at a path where
    nothing is: a directory on the way that is missing or that is a
    regular file. *)
Definition create_error (fs : gmap string fs_node) (path : string)
    : option open_error :=
  walk fs (ancestors "" path).

(** [log_metrics(input_tokens, output_tokens, latency_ms, csv_path=...)]
    at the time [now]: the exception it raises, if any, and the world
    afterwards. *)
Definition log_metrics (now : datetime) (input_tokens output_tokens latency_ms : Z)
    (csv_path : option string) (w : MetricsWorld) : option open_error * MetricsWorld :=
  let w :=
    {| files := files w;
       metrics_log :=
         metrics_log w
           ++ [{| tokens_in := input_tokens; tokens_out := output_tokens;
                  latency := latency_ms |}] |} in
  match csv_path with
  | None => (None, w)
  | Some path =>
      if negb (nonempty path) then (None, w)
      else
        let row := csv_row now input_tokens output_tokens latency_ms in
        match files w !! path with
        | Some Fs_dir => (Some IsADirectoryError, w)
        | Some (Fs_file content) =>
            (None,
             {| files := <[path := Fs_file (content +:+ row)]> (files w);
                metrics_log := metrics_log w |})
        | None =>
            match create_error (files w) path with
            | Some e => (Some e, w)
            | None =>
                (None,
                 {| files := <[path := Fs_file (csv_header +:+ row)]> (files w);
                    metrics_log := metrics_log w |})
            end
        end
  end.

(** The rows of a sequence of calls, one after the other. *)
Fixpoint csv_rows (calls : list (datetime * Z * Z * Z)) : string :=
  match calls with
  | [] => EmptyString
  | (now, a, b, c) :: rest => csv_row now a b c +:+ csv_rows rest
  end.

Definition metrics_records (calls : list (datetime * Z * Z * Z))
    : list metrics_record :=
  (λ call : datetime * Z * Z * Z,
     let '(_, a, b, c) := call in
     {| tokens_in := a; tokens_out := b; latency := c |}) <$> calls.

(** One call of [log_metrics]: its time and its three numbers. *)
Definition metrics_call : Type := datetime * Z * Z * Z.

(** The calls of [calls], one after the other, on the same path; the
    first exception stops the sequence. *)
Fixpoint log_all (calls : list metrics_call) (csv_path : option string)
    (w : MetricsWorld) : option open_error * MetricsWorld :=
  match calls with
  | [] => (None, w)
  | (now, a, b, c) :: rest =>
      match log_metrics now a b c csv_path w with
      | (Some e, w') => (Some e, w')
      | (None, w') => log_all rest csv_path w'
      end
  end.

(** ** The model choice of [streamlit_app] *)

Definition default_model (available_models : list string) : option string :=
  if bool_decide ("gemma3:1b" ∈ available_models) then Some "gemma3:1b"
  else match available_models with
       | m :: _ => Some m
       | [] => None
       end.

(** The [index] argument of the select box; [None] stands for the
    [ValueError] of [list.index]. *)
Definition selectbox_index (available_models : list string) : option nat :=
  match default_model available_models with
  | Some m => if nonempty m then list_index available_models m else Some O
  | None => Some O
  end.

(** ** [test_faiss.rebuild_store] *)


Section Rebuild.
Context {V : Type}.
Variable encode : string → V.




End Rebuild.

(** ** Distances of documents to a query *)

Section Distances.
Context {V : Type}.
Variable encode : string → V.
Variable l2 : V → V → Z.

(** The distance the weakness index ranks by, and the one the
    full-text index ranks by. *)
Definition weakness_distance (query : string) (d : Document) : Z :=
  l2 (encode query) (encode (cwe (metadata d))).

Definition content_distance (query : string) (d : Document) : Z :=
  l2 (encode query) (encode (content d)).

End Distances.



(** ** Concrete worlds, replies and calls to run the statements on *)

Definition sqli_world : World (V:=Z) :=
  world_with_recipe "sqli.txt" sqli_with_cwe_header.2.

Definition sqli_document : Document := document_of sqli_with_cwe_header.


Definition empty_directory_world : World (V:=Z) :=
  {| recipe_dir := [sqli_with_cwe_header];
     index_path := Some (Directory ∅);
     log := [] |}.

Definition blocked_world : World (V:=Z) :=
  {| recipe_dir := [sqli_with_cwe_header];
     index_path := Some Regular_file;
     log := [] |}.

Definition fenced_body : string :=
"
{}
".

Definition noon : datetime :=
  {| year := 2024; month := 3; day := 7; hour := 12; minute := 0; second := 5 |}.

Definition no_files : MetricsWorld := {| files := ∅; metrics_log := [] |}.

Definition empty_log_file : MetricsWorld :=
  {| files := {["logs.csv" := Fs_file ""]}; metrics_log := [] |}.

(** * Properties *)

(** ** The parser *)

Lemma startswith_cwe_split (s : string) :
  startswith s "cwe:" = true → getitem (split1 ":" s) 1 = Ok (drop 4 s).
Proof.
  intros H.
  destruct s as [|a [|b [|c [|d s]]]]; cbn [startswith] in H; try discriminate;
    repeat match type of H with
           | (if Ascii.eqb ?x ?y then _ else _) = true =>
               destruct (Ascii.eqb_spec x y) as [?|?]; [subst|]; cbn [startswith] in H
           end;
    try discriminate.
  reflexivity.
Qed.

Lemma parse_loop_spec (files : list (string * string))
    (lg : list log_record) (docs : list Document) :
  parse_loop files lg docs
  = (lg ++ concat (file_log <$> files),
     Ok (docs ++ (document_of <$> List.filter has_cwe_header files))).
Proof.
  revert lg docs. induction files as [|[name text] files IH]; intros lg docs.
  - simpl. by rewrite !app_nil_r.
  - cbn [parse_loop fmap list_fmap concat List.filter].
    unfold file_log at 1, has_cwe_header at 1 2. cbn [fst snd].
    destruct (readline (universal_newlines text)) as [line remainder] eqn:Hrl.
    cbn [fst snd].
    destruct (startswith (strip line) "cwe:") eqn:Hhdr; cbn [negb].
    + rewrite (startswith_cwe_split _ Hhdr), IH.
      cbn [fmap list_fmap]. unfold document_of at 2. cbn [fst snd]. rewrite Hrl.
      cbn [fst snd app]. by rewrite <- !app_assoc.
    + rewrite IH. by rewrite <- !app_assoc.
Qed.

Lemma parse_recipes_spec (listing : list (string * string)) :
  _parse_recipes listing
  = ((INFO, Found_recipe_files (length (glob_txt listing)))
       :: concat (file_log <$> glob_txt listing),
     Ok (document_of <$> List.filter has_cwe_header (glob_txt listing))).
Proof. unfold _parse_recipes. by rewrite parse_loop_spec. Qed.

Lemma warnings_app (l1 l2 : list log_record) :
  warnings (l1 ++ l2) = warnings l1 ++ warnings l2.
Proof. unfold warnings. apply omap_app. Qed.

Lemma warnings_file_logs (files : list (string * string)) :
  warnings (concat (file_log <$> files))
  = (λ f : string * string, Skipping f.1)
      <$> List.filter (λ f, negb (has_cwe_header f)) files.
Proof.
  induction files as [|f files IH]; [done|].
  cbn [fmap list_fmap concat List.filter].
  rewrite warnings_app, IH. unfold file_log.
  destruct (has_cwe_header f); reflexivity.
Qed.

(** C5, as stated, fails: a file whose first line is [weakness: CWE-79]
    is skipped with a warning, and a file whose first line is
    [cwe: CWE-89], which does not match [weakness: <id>], is parsed. *)
Lemma weakness_header_is_skipped :
  spec_weakness_header xss_with_weakness_header = true
  ∧ spec_weakness_header sqli_with_cwe_header = false
  ∧ _parse_recipes [xss_with_weakness_header; sqli_with_cwe_header]
    = ([(INFO, Found_recipe_files 2);
        (INFO, Processing "xss.txt"); (WARNING, Skipping "xss.txt");
        (INFO, Processing "sqli.txt")],
       Ok [{| metadata := {| cwe := "CWE-89"; tags := []; languages := [] |};
              content := "name: SQLi
" |}]).
Proof. repeat split; reflexivity. Qed.

(** Line ends are those of a file opened for reading as text: a carriage
    return ends the first line too, so a file that starts with one is
    skipped, and the content of a file written with CR LF has LF alone. *)
Lemma carriage_return_ends_the_first_line :
  has_cwe_header ("a.txt", String "013" "cwe: CWE-89") = false
  ∧ document_of
      ("b.txt",
       "cwe: CWE-89" +:+ eol CRLF +:+ "name: SQLi" +:+ eol CRLF +:+ "text")
    = {| metadata := {| cwe := "CWE-89"; tags := []; languages := [] |};
         content := "name: SQLi" +:+ eol LF +:+ "text" |}.
Proof. split; vm_compute; reflexivity. Qed.

(** C5, amended: for every listing of the recipe directory, parsing
    raises nothing; the documents are exactly those of the [.txt] files
    whose stripped first line starts with [cwe:], in listing order, and
    the warnings logged are exactly one [Skipping] per other [.txt]
    file, in listing order. *)
Theorem parse_recipes_skips_files_without_cwe_header
    (listing : list (string * string)) :
  (_parse_recipes listing).2
  = Ok (document_of <$> List.filter has_cwe_header (glob_txt listing))
  ∧ warnings (_parse_recipes listing).1
    = (λ f : string * string, Skipping f.1)
        <$> List.filter (λ f, negb (has_cwe_header f)) (glob_txt listing).
Proof.
  rewrite parse_recipes_spec. split; [reflexivity|].
  cbn [fst]. change (?x :: ?l) with ([x] ++ l).
  rewrite warnings_app, warnings_file_logs. reflexivity.
Qed.

(** ** Stores built by parsing *)

Lemma filter_none {A : Type} (f : A → bool) (l : list A) :
  (∀ x, x ∈ l → f x = false) → List.filter f l = [].
Proof.
  induction l as [|x l IH]; intros H; [done|].
  cbn [List.filter]. rewrite (H x) by apply list_elem_of_here.
  apply IH. intros y Hy. apply H. by apply list_elem_of_further.
Qed.

Lemma language_filter_lookup (language : string) :
  ({["language" := language]} : gmap string string) ≠ ∅
  ∧ ({["language" := language]} : gmap string string) !! "language" = Some language.
Proof. split; [apply map_non_empty_singleton | apply lookup_singleton_eq]. Qed.

Section Built.
Context {V : Type}.
Variable encode : string → V.
Variable l2 : V → V → Z.

Lemma candidate_indices_language (docs : list Document) (language : string) :
  candidate_indices docs (Some {["language" := language]})
  = List.filter (has_language docs language) (seqZ 0 (Z.of_nat (length docs))).
Proof.
  unfold candidate_indices.
  destruct (language_filter_lookup language) as [Hne ->].
  by rewrite bool_decide_eq_false_2.
Qed.

Lemma candidate_indices_no_languages (docs : list Document) (language : string) :
  (∀ d, d ∈ docs → languages (metadata d) = []) →
  candidate_indices docs (Some {["language" := language]}) = [].
Proof.
  intros Hdocs. rewrite candidate_indices_language.
  apply filter_none. intros i _. unfold has_language.
  destruct (docs !! Z.to_nat i) as [d|] eqn:Hd; [|done].
  rewrite (Hdocs d) by (eapply list_elem_of_lookup_2; eauto).
  apply bool_decide_eq_false_2. apply not_elem_of_nil.
Qed.

Lemma build_indexes_store (w : World (V:=V)) (s : VectorStore) :
  (_build_indexes encode w).1 = Ok s →
  let docs := document_of <$> List.filter has_cwe_header (glob_txt (recipe_dir w)) in
  (docs = [] ∧ s = empty_store) ∨ (docs ≠ [] ∧ s = indexed_store encode docs).
Proof.
  unfold _build_indexes. rewrite parse_recipes_spec. cbn zeta.
  destruct (document_of <$> _) as [|d docs]; cbn [fst].
  - intros [= <-]. by left.
  - destruct (mkdir_exist_ok _); cbn [fst]; [|discriminate].
    intros [= <-]. by right.
Qed.

Lemma build_indexes_documents (w : World (V:=V)) (s : VectorStore) :
  (_build_indexes encode w).1 = Ok s →
  documents s
  = document_of <$> List.filter has_cwe_header (glob_txt (recipe_dir w)).
Proof.
  intros Hb. by destruct (build_indexes_store w s Hb) as [[-> ->]|[_ ->]].
Qed.

Lemma build_indexes_no_languages (w : World (V:=V)) (s : VectorStore) :
  (_build_indexes encode w).1 = Ok s →
  ∀ d, d ∈ documents s → tags (metadata d) = [] ∧ languages (metadata d) = [].
Proof.
  intros Hb d. rewrite (build_indexes_documents _ _ Hb).
  intros (f & -> & _)%list_elem_of_fmap. done.
Qed.

(** C4: every document the parser returns has no tags and no
    languages; so on every store that [_build_indexes] returns, a
    full-text search with a language filter returns the empty list,
    whatever the query, the bound and the language. *)
Theorem parsed_store_language_filter_finds_nothing :
  (∀ (listing : list (string * string)) (docs : list Document),
      (_parse_recipes listing).2 = Ok docs →
      ∀ d, d ∈ docs → tags (metadata d) = [] ∧ languages (metadata d) = [])
  ∧ (∀ (w : World (V:=V)) (s : VectorStore),
      (_build_indexes encode w).1 = Ok s →
      ∀ (query : string) (k : Z) (language : string),
        search_full_text encode l2 s query k (Some {["language" := language]})
        = Ok []).
Proof.
  split.
  - intros listing docs. rewrite parse_recipes_spec. cbn [snd].
    intros [= <-] d (f & -> & _)%list_elem_of_fmap. done.
  - intros w s Hb query k language. unfold search_full_text.
    destruct (full_text_index s); [|done].
    rewrite candidate_indices_no_languages; [done|].
    intros d Hd. by apply (build_indexes_no_languages w s Hb).
Qed.

(** *** The empty corpus *)

Lemma load_or_build_empty (w : World (V:=V)) :
  is_snapshot (index_path w) = false →
  List.filter has_cwe_header (glob_txt (recipe_dir w)) = [] →
  (_load_or_build encode w).1 = Ok empty_store
  ∧ index_path (_load_or_build encode w).2 = index_path w
  ∧ recipe_dir (_load_or_build encode w).2 = recipe_dir w.
Proof.
  intros Hsnap Hnone. unfold _load_or_build.
  assert (Hb : ∀ w' : World (V:=V),
             recipe_dir w' = recipe_dir w →
             (_build_indexes encode w').1 = Ok empty_store
             ∧ index_path (_build_indexes encode w').2 = index_path w'
             ∧ recipe_dir (_build_indexes encode w').2 = recipe_dir w').
  { intros w' Hw'. unfold _build_indexes.
    rewrite parse_recipes_spec, Hw', Hnone. cbn. done. }
  destruct (index_path w) as [[|entries]|] eqn:Hp; try discriminate;
    (destruct (Hb (logging [(INFO, Building_new_vector_store)] w)) as (? & ? & ?);
     [reflexivity|]; repeat split; try assumption;
     etransitivity; [eassumption|]; cbn; by rewrite ?Hp).
Qed.

(** C6, amended: when no snapshot directory exists at the index path and
    no [.txt] file of the recipe directory has a [cwe:] header,
    constructing the store raises nothing, creates neither index and no
    snapshot, both searches return the empty list for every query and
    every bound, and [retrieve] returns the sentinel text for every
    triple. *)
Theorem empty_corpus_store (w : World (V:=V)) :
  is_snapshot (index_path w) = false →
  List.filter has_cwe_header (glob_txt (recipe_dir w)) = [] →
  ∃ s : VectorStore,
    (_load_or_build encode w).1 = Ok s
    ∧ cwe_index s = None ∧ full_text_index s = None
    ∧ index_path (_load_or_build encode w).2 = index_path w
    ∧ (∀ cwe_id k, search_cwe encode l2 s cwe_id k = Ok [])
    ∧ (∀ query k filter_metadata,
          search_full_text encode l2 s query k filter_metadata = Ok [])
    ∧ (∀ cwe language code,
          (retrieve encode l2 s cwe language code).2
          = Ok "No specific guidance found.").
Proof.
  intros Hsnap Hnone.
  destruct (load_or_build_empty w Hsnap Hnone) as (Hs & Hp & _).
  exists empty_store. repeat split; try done.
Qed.

(** *** Rows and documents *)

Lemma create_index_length (embeddings : list V) :
  length (_create_index embeddings) = length embeddings.
Proof.
  unfold _create_index, Faiss.add_with_ids. cbn [app].
  rewrite length_zip_with, length_seqZ. lia.
Qed.

Lemma create_index_lookup (embeddings : list V) (i : nat) :
  _create_index embeddings !! i = (λ v, (Z.of_nat i, v)) <$> embeddings !! i.
Proof.
  unfold _create_index, Faiss.add_with_ids. cbn [app].
  rewrite lookup_zip_with.
  destruct (embeddings !! i) as [v|] eqn:Hv.
  - rewrite lookup_seqZ_lt; [done|].
    apply lookup_lt_Some in Hv. lia.
  - by destruct (seqZ _ _ !! i).
Qed.

Lemma create_index_labels (embeddings : list V) :
  (_create_index embeddings).*1 = seqZ 0 (Z.of_nat (length embeddings)).
Proof.
  unfold _create_index, Faiss.add_with_ids. cbn [app].
  apply fst_zip. rewrite length_seqZ. lia.
Qed.

(** C8: on a store that [_build_indexes] returns with at least one
    document, both indices exist, each has as many rows as there are
    documents, the labels of each are 0, 1, ... in row order, and row
    [i] of each index carries label [i] and the embedding of document
    [i] (of its weakness id in one, of its content in the other). *)
Theorem built_store_rows_match_documents (w : World (V:=V)) (s : VectorStore) :
  (_build_indexes encode w).1 = Ok s →
  documents s ≠ [] →
  ∃ ci fi : Faiss.index V,
    cwe_index s = Some ci ∧ full_text_index s = Some fi
    ∧ Faiss.ntotal ci = Z.of_nat (length (documents s))
    ∧ Faiss.ntotal fi = Z.of_nat (length (documents s))
    ∧ ci.*1 = seqZ 0 (Z.of_nat (length (documents s)))
    ∧ fi.*1 = seqZ 0 (Z.of_nat (length (documents s)))
    ∧ ∀ (i : nat) (d : Document),
        documents s !! i = Some d →
        ci !! i = Some (Z.of_nat i, encode (cwe (metadata d)))
        ∧ fi !! i = Some (Z.of_nat i, encode (content d)).
Proof.
  intros Hb Hne.
  destruct (build_indexes_store w s Hb) as [[_ ->]|[_ ->]]; [done|].
  set (docs := document_of <$> _). unfold indexed_store.
  cbn [cwe_index full_text_index documents].
  eexists _, _. split; [reflexivity|]. split; [reflexivity|].
  unfold Faiss.ntotal.
  rewrite !create_index_length, !create_index_labels, !length_fmap.
  repeat split; try reflexivity.
  + rewrite create_index_lookup, !list_lookup_fmap, H. reflexivity.
  + rewrite create_index_lookup, !list_lookup_fmap, H. reflexivity.
Qed.

(** *** The snapshot *)

Lemma snapshot_reads (entries : gmap string blob)
    (ci fi : Faiss.index V) (docs : list Document) :
  let entries' :=
    <["documents.npy" := Array_blob docs]>
      (<["full_text.index" := Index_blob fi]>
         (<["cwe.index" := Index_blob ci]> entries)) in
  read_index entries' "cwe.index" = Ok ci
  ∧ read_index entries' "full_text.index" = Ok fi
  ∧ np_load entries' "documents.npy" = Ok docs.
Proof.
  unfold read_index, np_load. cbn zeta.
  rewrite lookup_insert_eq.
  rewrite !(lookup_insert_ne _ "documents.npy") by done.
  rewrite lookup_insert_eq.
  rewrite (lookup_insert_ne _ "full_text.index") by done.
  rewrite lookup_insert_eq. done.
Qed.

Lemma load_or_build_again (w : World (V:=V)) (s : VectorStore) :
  (_load_or_build encode w).1 = Ok s →
  (_load_or_build encode (_load_or_build encode w).2).1 = Ok s
  ∧ (documents s ≠ [] → is_snapshot (index_path (_load_or_build encode w).2) = true).
Proof.
  destruct (is_snapshot (index_path w)) eqn:Hsnap.
  - (* a snapshot is there already: both constructions load it *)
    unfold _load_or_build at 1 3 4.
    destruct (index_path w) as [[|entries]|] eqn:Hp; try discriminate.
    cbn [fst snd]. intros Hs. unfold _load_or_build. cbn [index_path logging].
    rewrite Hp. cbn [fst]. done.
  - destruct (List.filter has_cwe_header (glob_txt (recipe_dir w))) as [|f fs] eqn:Hf.
    + (* nothing to index: the corpus is parsed again, with the same outcome *)
      destruct (load_or_build_empty w Hsnap Hf) as (Hs & Hp & Hr).
      rewrite Hs. intros [= <-]. split; [|done].
      apply load_or_build_empty; by rewrite ?Hp, ?Hr.
    + (* the snapshot is written, and read back *)
      unfold _load_or_build at 1 3 4.
      assert (Hb : ∀ w' : World (V:=V),
                 recipe_dir w' = recipe_dir w → index_path w' = index_path w →
                 (_build_indexes encode w').1 = Ok s →
                 (_load_or_build encode (_build_indexes encode w').2).1 = Ok s
                 ∧ is_snapshot (index_path (_build_indexes encode w').2) = true).
      { intros w' Hr Hp. unfold _build_indexes.
        rewrite parse_recipes_spec, Hr, Hf.
        cbn [fmap list_fmap fst snd logging index_path]. rewrite Hp.
        destruct (mkdir_exist_ok (index_path w)) as [entries|] eqn:Hm;
          cbn [fst snd]; [|discriminate].
        intros [= <-]. unfold _load_or_build.
        cbn [with_index_path index_path logging fst].
        edestruct snapshot_reads as (-> & -> & ->). done. }
      destruct (index_path w) as [[|entries]|] eqn:Hp; try discriminate;
        intros Hs;
        destruct (Hb (logging [(INFO, Building_new_vector_store)] w) eq_refl Hp Hs);
        done.
Qed.

Lemma read_index_inv (entries : gmap string blob) (name : string)
    (idx : Faiss.index V) :
  read_index entries name = Ok idx → entries !! name = Some (Index_blob idx).
Proof.
  unfold read_index. destruct (entries !! name) as [[]|]; congruence.
Qed.

Lemma np_load_inv (entries : gmap string (blob (V:=V))) (name : string)
    (docs : list Document) :
  np_load entries name = Ok docs → entries !! name = Some (Array_blob docs).
Proof.
  unfold np_load. destruct (entries !! name) as [[]|]; congruence.
Qed.

Lemma load_from_snapshot (w : World (V:=V)) (s : VectorStore) :
  is_snapshot (index_path w) = true →
  (_load_or_build encode w).1 = Ok s →
  holds_snapshot_of (index_path w) s
  ∧ ∀ listing : list (string * string),
      (_load_or_build encode (with_recipes listing w)).1 = Ok s
      ∧ log (_load_or_build encode (with_recipes listing w)).2
        = log w ++ [(INFO, Loading_existing_vector_store)].
Proof.
  intros Hsnap. unfold _load_or_build, with_recipes. cbn [index_path].
  destruct (index_path w) as [[|entries]|]; try discriminate.
  cbn [fst snd log logging].
  destruct (read_index entries "cwe.index") as [ci|] eqn:Hci; [|discriminate].
  destruct (read_index entries "full_text.index") as [fi|] eqn:Hfi;
    [|discriminate].
  destruct (np_load entries "documents.npy") as [docs|] eqn:Hdocs;
    [|discriminate].
  cbn [mbind res_bind Py.bind mret res_ret]. intros [= <-].
  split; [|done]. exists entries, ci, fi.
  cbn [cwe_index full_text_index documents].
  split_and!; try done;
    [by apply read_index_inv..|by apply np_load_inv].
Qed.

(** C9: whenever constructing a store succeeds, constructing a fresh
    store in the world it leaves behind succeeds too and answers every
    weakness search and every full-text search as the first store does.
    When the first store has documents, the world it leaves behind holds
    a snapshot directory whose three files hold the two indices and the
    documents of that store, and the fresh store is loaded from them and
    not built again: whatever the recipe directory has become, the fresh
    constructor logs the loading message alone and returns a store that
    answers every search as the first store does. *)
Theorem snapshot_round_trip (w : World (V:=V)) (s : VectorStore) :
  (_load_or_build encode w).1 = Ok s →
  ∃ s' : VectorStore,
    (_load_or_build encode (_load_or_build encode w).2).1 = Ok s'
    ∧ (documents s ≠ [] →
       is_snapshot (index_path (_load_or_build encode w).2) = true)
    ∧ (∀ cwe_id k,
          search_cwe encode l2 s' cwe_id k = search_cwe encode l2 s cwe_id k)
    ∧ (∀ query k filter_metadata,
          search_full_text encode l2 s' query k filter_metadata
          = search_full_text encode l2 s query k filter_metadata)
    ∧ (documents s ≠ [] →
       holds_snapshot_of (index_path (_load_or_build encode w).2) s
       ∧ ∀ listing : list (string * string),
           ∃ s'' : VectorStore,
             (_load_or_build encode
                (with_recipes listing (_load_or_build encode w).2)).1 = Ok s''
             ∧ log (_load_or_build encode
                      (with_recipes listing (_load_or_build encode w).2)).2
               = log (_load_or_build encode w).2
                   ++ [(INFO, Loading_existing_vector_store)]
             ∧ (∀ cwe_id k,
                  search_cwe encode l2 s'' cwe_id k
                  = search_cwe encode l2 s cwe_id k)
             ∧ (∀ query k filter_metadata,
                  search_full_text encode l2 s'' query k filter_metadata
                  = search_full_text encode l2 s query k filter_metadata)).
Proof.
  intros Hs. destruct (load_or_build_again w s Hs) as [Hs' Hsnap].
  exists s. split_and!; try done.
  intros Hne.
  destruct (load_from_snapshot _ s (Hsnap Hne) Hs') as [Hholds Hload].
  split; [done|]. intros listing. exists s.
  destruct (Hload listing) as [? ?]. done.
Qed.

End Built.

(** ** Searches on an arbitrary store *)

Section Search.
Context {V : Type}.
Variable encode : string → V.
Variable l2 : V → V → Z.

Lemma getitem_lookup {A : Type} (l : list A) (i : nat) (x : A) :
  l !! i = Some x → getitem l (Z.of_nat i) = Ok x.
Proof.
  intros Hx. unfold getitem.
  pose proof (lookup_lt_Some _ _ _ Hx) as Hlt.
  destruct (Z.ltb_spec (Z.of_nat i) 0); [lia|].
  destruct (Z.leb_spec 0 (Z.of_nat i)); [|lia].
  destruct (Z.ltb_spec (Z.of_nat i) (Z.of_nat (length l))); [|lia].
  cbn [andb]. by rewrite Nat2Z.id, Hx.
Qed.

Lemma candidate_has_language (docs : list Document) (language : string) (i : Z) :
  i ∈ candidate_indices docs (Some {["language" := language]}) →
  ∃ d, getitem docs i = Ok d ∧ language ∈ languages (metadata d).
Proof.
  rewrite candidate_indices_language, list_elem_of_In, filter_In.
  rewrite <- list_elem_of_In, elem_of_seqZ. intros [Hi Hlang].
  unfold has_language in Hlang.
  destruct (docs !! Z.to_nat i) as [d|] eqn:Hd; [|discriminate].
  exists d. split.
  - rewrite <- (Z2Nat.id i) by lia. by apply getitem_lookup.
  - by apply bool_decide_eq_true in Hlang.
Qed.

Lemma collect_invariant (P : Document → Prop) (docs : list Document)
    (candidates : list Z) (k : Z) (indices : list Z) (results : list Document) :
  (∀ i, i ∈ candidates → ∃ d, getitem docs i = Ok d ∧ P d) →
  Forall P results →
  ∃ ds, collect docs candidates k indices results = Ok ds ∧ Forall P ds.
Proof.
  intros Hcand. revert results.
  induction indices as [|i indices IH]; intros results Hres; cbn [collect].
  - by exists results.
  - case_bool_decide as Hi; [|by apply IH].
    destruct (Hcand i Hi) as (d & -> & Hd). cbn [mbind res_bind Py.bind].
    assert (Forall P (results ++ [d])) as Hres'.
    { apply Forall_app. split; [done|]. by apply Forall_singleton. }
    destruct (_ =? k); [by eexists|by apply IH].
Qed.

Lemma search_nonempty_bound (A : Type) (index : Faiss.index V) (q : V)
    (c : A) (cs : list A) :
  ∃ indices, Faiss.search l2 index q (Z.of_nat (length (c :: cs))) = Ok indices.
Proof.
  unfold Faiss.search.
  destruct (Z.leb_spec (Z.of_nat (length (c :: cs))) 0) as [Hle|_];
    [cbn [length] in Hle; lia|by eexists].
Qed.

(** C7: for every store, query, bound and language, a full-text search
    filtered by that language raises nothing, and the language is among
    the languages of every document it returns. *)
Theorem search_full_text_respects_language
    (s : VectorStore (V:=V)) (query : string) (k : Z) (language : string) :
  ∃ ds : list Document,
    search_full_text encode l2 s query k (Some {["language" := language]}) = Ok ds
    ∧ ∀ d, d ∈ ds → language ∈ languages (metadata d).
Proof.
  unfold search_full_text.
  destruct (full_text_index s) as [index|]; [|by exists []; split; [|inversion 1]].
  destruct (candidate_indices _ _) as [|c cs] eqn:Hc;
    [by exists []; split; [|inversion 1]|].
  destruct (search_nonempty_bound Z index (encode query) c cs) as [indices ->].
  cbn [mbind res_bind Py.bind].
  destruct (collect_invariant (λ d, language ∈ languages (metadata d))
              (documents s) (c :: cs) k indices []) as (ds & -> & Hds).
  - intros i Hi. apply candidate_has_language. by rewrite Hc.
  - constructor.
  - exists ds. split; [done|]. by apply Forall_forall.
Qed.

(** *** The two tiers of [retrieve] *)

Lemma take_prefix (n : nat) (s : string) :
  s = take n s +:+ drop n s
  ∧ String.length (take n s) = Nat.min n (String.length s).
Proof.
  revert s. induction n as [|n IH]; intros s; [done|].
  destruct s as [|c s]; [done|]. cbn [take drop].
  destruct (IH s) as [Heq Hlen]. split.
  - change (String c s = String c (take n s +:+ drop n s)). by rewrite <- Heq.
  - change (S (String.length (take n s)) = S (Nat.min n (String.length s))).
    by rewrite Hlen.
Qed.

(** C3: [retrieve] always starts with the weakness search for its
    weakness id with bound 1; it goes on to a full-text search exactly
    when that search returned the empty list, and that full-text search
    is then its only other call on the store: its query is the language,
    a space, the weakness id, a space and the first 500 characters of the
    code, its bound is 1 and its filter is the language. What [retrieve]
    returns is decided by these searches: with a hit of the weakness
    search, the context of that hit; with none, the context of the first
    hit of that full-text search, or the sentinel when it has none; an
    exception of either search is the exception of [retrieve]. *)
Theorem retrieve_runs_tier2_iff_tier1_is_empty
    (s : VectorStore (V:=V)) (cwe language code : string) :
  let calls := (retrieve encode l2 s cwe language code).1 in
  let tier2 :=
    Call_search_full_text (tier2_query cwe language code) 1
      (Some {["language" := language]}) in
  (calls = [Call_search_cwe cwe 1] ∨ calls = [Call_search_cwe cwe 1; tier2])
  ∧ (calls = [Call_search_cwe cwe 1; tier2]
     ↔ search_cwe encode l2 s cwe 1 = Ok [])
  ∧ (∀ query k filter_metadata,
       Call_search_full_text query k filter_metadata ∈ calls ↔
       search_cwe encode l2 s cwe 1 = Ok []
       ∧ query = language +:+ " " +:+ cwe +:+ " " +:+ take 500 code
       ∧ k = 1
       ∧ filter_metadata = Some {["language" := language]})
  ∧ (∀ hit hits,
       search_cwe encode l2 s cwe 1 = Ok (hit :: hits) →
       (retrieve encode l2 s cwe language code).2 = Ok (focused (content hit)))
  ∧ (∀ e,
       search_cwe encode l2 s cwe 1 = Raise e →
       (retrieve encode l2 s cwe language code).2 = Raise e)
  ∧ (search_cwe encode l2 s cwe 1 = Ok [] →
     (retrieve encode l2 s cwe language code).2
     = match
         search_full_text encode l2 s
           (language +:+ " " +:+ cwe +:+ " " +:+ take 500 code) 1
           (Some {["language" := language]})
       with
       | Ok (hit :: _) => Ok (focused (content hit))
       | Ok [] => Ok "No specific guidance found."
       | Raise e => Raise e
       end)
  ∧ code = take 500 code +:+ drop 500 code
  ∧ String.length (take 500 code) = Nat.min 500 (String.length code).
Proof.
  cbn zeta. unfold retrieve. fold (tier2_query cwe language code).
  split_and!; try apply take_prefix.
  - destruct (search_cwe _ _ _ _ _) as [[|hit hits]|e]; cbn [fst]; auto.
    destruct (search_full_text _ _ _ _ _ _) as [[|hit hits]|e]; cbn [fst]; auto.
  - destruct (search_cwe _ _ _ _ _) as [[|hit hits]|e]; cbn [fst];
      [|split; discriminate..].
    destruct (search_full_text _ _ _ _ _ _) as [[|hit hits]|e]; cbn [fst]; done.
  - intros query k filter_metadata.
    destruct (search_cwe _ _ _ _ _) as [[|hit hits]|e]; cbn [fst].
    + assert (Call_search_full_text query k filter_metadata
                ∈ [Call_search_cwe cwe 1;
                   Call_search_full_text (tier2_query cwe language code) 1
                     (Some {["language" := language]})]
              ↔ query = tier2_query cwe language code ∧ k = 1
                ∧ filter_metadata = Some {["language" := language]}) as Hin.
      { rewrite !elem_of_cons, elem_of_nil. split.
        - intros [[=]|[[= -> -> ->]|[]]]. done.
        - intros (-> & -> & ->). auto. }
      destruct (search_full_text _ _ _ _ _ _) as [[|hit' hits']|e]; cbn [fst];
        rewrite Hin; unfold tier2_query;
        (split; [intros (-> & -> & ->)|intros (_ & -> & -> & ->)]; done).
    + rewrite list_elem_of_singleton. split; [discriminate|]. by intros [[=] _].
    + rewrite list_elem_of_singleton. split; [discriminate|]. by intros [[=] _].
  - by intros hit hits ->.
  - by intros e ->.
  - intros ->. unfold tier2_query.
    by destruct (search_full_text _ _ _ _ _ _) as [[|hit hits]|e].
Qed.

(** The fallback search is reached: on a store whose weakness index has
    no row, [retrieve] makes both calls and answers from the full-text
    search, with the context of the document when the language is among
    its languages and with the sentinel otherwise. *)
Lemma retrieve_falls_back_to_full_text
    (d : Document) (cwe language code : string) :
  retrieve encode l2 (store_without_weakness_rows encode d) cwe language code
  = ([Call_search_cwe cwe 1;
      Call_search_full_text (tier2_query cwe language code) 1
        (Some {["language" := language]})],
     Ok (if bool_decide (language ∈ languages (metadata d))
         then focused (content d) else sentinel)).
Proof.
  unfold retrieve, search_cwe, search_full_text, store_without_weakness_rows.
  cbn [cwe_index full_text_index documents].
  fold (tier2_query cwe language code).
  change (Faiss.search l2 [] (encode cwe) 1) with (Ok (A:=list Z) [-1]).
  cbn [mbind res_bind Py.bind List.filter Z.eqb Pos.eqb negb for_each].
  unfold candidate_indices.
  rewrite bool_decide_eq_false_2 by (by apply insert_non_empty).
  rewrite lookup_singleton_eq.
  change (seqZ 0 (Z.of_nat (length [d]))) with [0].
  cbn [List.filter]. unfold has_language.
  change ([d] !! Z.to_nat 0) with (Some d). cbn match.
  repeat case_bool_decide; done.
Qed.

End Search.

(** ** Stores loaded from a snapshot *)

Section Snapshot.
Context {V : Type}.
Variable encode : string → V.
Variable l2 : V → V → Z.

Lemma load_snapshot (docs : list Document) :
  (_load_or_build encode (world_with_snapshot encode docs)).1
  = Ok (indexed_store encode docs).
Proof.
  unfold _load_or_build, world_with_snapshot, snapshot_of. cbn [index_path fst].
  edestruct (snapshot_reads (V:=V)) as (-> & -> & ->). reflexivity.
Qed.

(** C1 fails on the code: take a snapshot of two documents, the first
    in the language asked for and the second not, and a query nearer to
    the content of the second. The candidate set has one member, so one
    neighbour is requested from the unfiltered index; it is the second
    document, which is dropped, and the search returns nothing, whereas
    the nearest member of the candidate set is the first document. *)
Theorem filtered_search_misses_nearest_candidate
    (d0 d1 : Document) (query language : string) :
  language ∈ languages (metadata d0) →
  language ∉ languages (metadata d1) →
  l2 (encode query) (encode (content d1)) < l2 (encode query) (encode (content d0)) →
  ∃ s : VectorStore,
    (_load_or_build encode (world_with_snapshot encode [d0; d1])).1 = Ok s
    ∧ candidate_indices (documents s) (Some {["language" := language]}) = [0]
    ∧ search_full_text encode l2 s query 1 (Some {["language" := language]}) = Ok []
    ∧ k_nearest_candidates encode l2 s query 1 (Some {["language" := language]}) = [d0].
Proof.
  intros Hin Hnotin Hlt. exists (indexed_store encode [d0; d1]).
  split; [apply load_snapshot|].
  assert (candidate_indices [d0; d1] (Some {["language" := language]}) = [0])
    as Hcand.
  { rewrite candidate_indices_language. cbn [length].
    change (seqZ 0 (Z.of_nat 2)) with [0; 1]. cbn [List.filter has_language].
    unfold has_language.
    change (Z.to_nat 0) with 0%nat. change (Z.to_nat 1) with 1%nat.
    cbn [lookup list_lookup].
    rewrite bool_decide_eq_true_2 by done.
    by rewrite bool_decide_eq_false_2 by done. }
  assert (Faiss.ranked l2
            (_create_index (encode <$> ((λ doc, content doc) <$> [d0; d1])))
            (encode query)
          = [(1, l2 (encode query) (encode (content d1)));
             (0, l2 (encode query) (encode (content d0)))]) as Hrank.
  { unfold Faiss.ranked, _create_index, Faiss.add_with_ids.
    cbn [fmap list_fmap length app].
    change (seqZ 0 (Z.of_nat 2)) with [0; 1]. cbn.
    destruct (Z.leb_spec (l2 (encode query) (encode (content d0)))
                     (l2 (encode query) (encode (content d1)))); [lia|done]. }
  split; [exact Hcand|]. split.
  - unfold search_full_text, indexed_store.
    cbn [full_text_index documents]. rewrite Hcand.
    unfold Faiss.search. rewrite Hrank.
    change (Z.of_nat (length [0])) with 1. change (Z.to_nat 1) with 1%nat. cbn.
    rewrite bool_decide_eq_false_2; [done|].
    rewrite list_elem_of_singleton. done.
  - unfold k_nearest_candidates, indexed_store.
    cbn [full_text_index documents]. rewrite Hcand, Hrank.
    change (Z.to_nat 1) with 1%nat. cbn [List.filter fst]. rewrite bool_decide_eq_false_2, bool_decide_eq_true_2.
    + reflexivity.
    + by apply list_elem_of_singleton.
    + rewrite list_elem_of_singleton. done.
Qed.

End Snapshot.

(** ** Scenarios *)

Section Scenarios.
Context {V : Type}.
Variable encode : string → V.
Variable l2 : V → V → Z.

(** On a store with a single row in its weakness index, the weakness
    search with bound 1 returns the document of that row for every
    weakness id. *)
Lemma search_cwe_single (d : Document) (cwe_id : string) :
  search_cwe encode l2 (indexed_store encode [d]) cwe_id 1 = Ok [d].
Proof. reflexivity. Qed.

Lemma retrieve_single (d : Document) (cwe language code : string) :
  retrieve encode l2 (indexed_store encode [d]) cwe language code
  = ([Call_search_cwe cwe 1], Ok (focused (content d))).
Proof. unfold retrieve. rewrite search_cwe_single. reflexivity. Qed.

(** C2 fails on the code: load a snapshot whose only document has
    weakness id CWE-79 and languages [python]. For every code string,
    [retrieve("CWE-89", "java", code)] makes one call on the store, the
    weakness search, takes its only neighbour, the CWE-79 document, and
    returns the context extracted from it, not the sentinel. *)
Theorem retrieve_answers_with_other_weakness (code : string) :
  ∃ s : VectorStore,
    (_load_or_build encode (world_with_snapshot encode [python_xss_document])).1
    = Ok s
    ∧ documents s = [python_xss_document]
    ∧ retrieve encode l2 s "CWE-89" "java" code
      = ([Call_search_cwe "CWE-89" 1], Ok python_xss_context)
    ∧ python_xss_context ≠ "No specific guidance found.".
Proof.
  exists (indexed_store encode [python_xss_document]).
  split; [apply load_snapshot|]. split; [reflexivity|].
  split; [by rewrite retrieve_single|discriminate].
Qed.


End Scenarios.

(** C6, as stated, fails: with no recipe at all and a snapshot directory
    left by an earlier run, the constructor loads the snapshot; both
    indices exist, the weakness search returns a document and [retrieve]
    returns its context, not the sentinel. *)
Lemma stale_snapshot_answers_on_empty_corpus :
  let w : World (V:=Z) := world_with_snapshot length_encode [python_xss_document] in
  let s := indexed_store length_encode [python_xss_document] in
  List.filter has_cwe_header (glob_txt (recipe_dir w)) = []
  ∧ (_load_or_build length_encode w).1 = Ok s
  ∧ cwe_index s ≠ None ∧ full_text_index s ≠ None
  ∧ search_cwe length_encode square_distance s "CWE-89" 1 = Ok [python_xss_document]
  ∧ (retrieve length_encode square_distance s "CWE-89" "java" "x = 1").2
    = Ok python_xss_context
  ∧ python_xss_context ≠ "No specific guidance found.".
Proof.
  cbn zeta. split_and!; done.
Qed.

(** Scenario A with a blank line under [Short Description:]: the
    description block is empty, and the context holds no description. *)
Lemma scenario_a_with_blank_line_under_description :
  let w : World (V:=Z) :=
    world_with_recipe "sqli.txt" scenario_a_recipe_with_blank_line in
  let s :=
    indexed_store length_encode
      [document_of ("sqli.txt", scenario_a_recipe_with_blank_line)] in
  (_load_or_build length_encode w).1 = Ok s
  ∧ ∃ context,
      (retrieve length_encode square_distance s "CWE-89" "java" "x = 1").2
      = Ok context
      ∧ contains context "**SQLi**" = true
      ∧ contains context "Use parameterized queries." = false.
Proof.
  cbn zeta. split; [vm_compute; reflexivity|].
  eexists. split; [vm_compute; reflexivity|]. split; vm_compute; reflexivity.
Qed.


(** ** Ranking: what the searches return on a store with both indices *)

Section Ranking.
Context {V : Type}.
Variable encode : string → V.
Variable l2 : V → V → Z.

Lemma insert_hit_perm (h : Z * Z) (hs : list (Z * Z)) :
  Faiss.insert_hit h hs ≡ₚ h :: hs.
Proof.
  induction hs as [|h' hs IH]; cbn [Faiss.insert_hit]; [done|].
  destruct (_ <=? _); [done|]. rewrite IH. apply Permutation_swap.
Qed.

Lemma ranked_labels (index : Faiss.index V) (q : V) :
  (Faiss.ranked l2 index q).*1 ≡ₚ index.*1.
Proof.
  induction index as [|row index IH]; [done|].
  unfold Faiss.ranked. cbn [foldr]. rewrite insert_hit_perm.
  cbn [fmap list_fmap fst]. by apply Permutation_skip.
Qed.

Lemma label_in_range (docs : list Document) (f : Document → string)
    (q : V) (i : Z) :
  i ∈ (Faiss.ranked l2 (_create_index (encode <$> (f <$> docs))) q).*1 →
  i ∈ seqZ 0 (Z.of_nat (length docs))
  ∧ ∃ d, docs !! Z.to_nat i = Some d ∧ getitem docs i = Ok d.
Proof.
  rewrite ranked_labels, create_index_labels, !length_fmap.
  intros Hi. split; [done|]. apply elem_of_seqZ in Hi.
  destruct (lookup_lt_is_Some_2 docs (Z.to_nat i)) as [d Hd]; [lia|].
  exists d. split; [done|].
  rewrite <- (Z2Nat.id i) by lia. by apply getitem_lookup.
Qed.

(** On a store with both indices over at least one document, the
    weakness search with bound 1 returns one document for every weakness
    id, so that [retrieve] never goes on to the full-text search. *)
Lemma search_cwe_hits (docs : list Document) (cwe_id : string) :
  docs ≠ [] →
  ∃ d, d ∈ docs
       ∧ search_cwe encode l2 (indexed_store encode docs) cwe_id 1 = Ok [d].
Proof.
  intros Hne. unfold search_cwe, indexed_store. cbn [cwe_index documents].
  unfold Faiss.search. change (1 <=? 0) with false. cbn iota.
  change (Z.to_nat 1) with 1%nat.
  pose proof (label_in_range docs (λ doc, cwe (metadata doc)) (encode cwe_id))
    as Hrange.
  pose proof (ranked_labels
                (_create_index (encode <$> ((λ doc, cwe (metadata doc)) <$> docs)))
                (encode cwe_id)) as Hperm.
  apply Permutation_length in Hperm.
  rewrite create_index_labels, length_seqZ, !length_fmap in Hperm.
  destruct (Faiss.ranked l2 _ _) as [|[i dist] hits].
  { destruct docs; [done|]. cbn [length] in Hperm. lia. }
  destruct (Hrange i) as (Hi & d & Hd & Hget); [apply list_elem_of_here|].
  apply elem_of_seqZ in Hi.
  exists d. split; [by eapply list_elem_of_lookup_2|].
  cbn [fmap list_fmap fst app List.firstn mbind res_bind Py.bind List.filter].
  destruct (Z.eqb_spec i (-1)); [lia|]. cbn [negb for_each Py.bind].
  by rewrite Hget.
Qed.

Lemma retrieve_stops_at_tier1 (docs : list Document) (cwe language code : string) :
  docs ≠ [] →
  (retrieve encode l2 (indexed_store encode docs) cwe language code).1
  = [Call_search_cwe cwe 1].
Proof.
  intros Hne. unfold retrieve.
  by destruct (search_cwe_hits docs cwe Hne) as (d & _ & ->).
Qed.

Lemma collect_all (docs : list Document) (candidates : list Z) (k : Z)
    (indices : list Z) (results : list Document) :
  (∀ i, i ∈ indices →
        i ∈ candidates ∧ ∃ d, docs !! Z.to_nat i = Some d ∧ getitem docs i = Ok d) →
  Z.of_nat (length results) < k →
  collect docs candidates k indices results
  = Ok (results
          ++ omap (λ i, docs !! Z.to_nat i)
               (List.firstn (Z.to_nat k - length results) indices)).
Proof.
  revert results. induction indices as [|i indices IH]; intros results Hall Hlt.
  - cbn [collect]. by rewrite firstn_nil, app_nil_r.
  - cbn [collect].
    destruct (Hall i) as (Hi & d & Hd & Hget); [apply list_elem_of_here|].
    rewrite bool_decide_eq_true_2 by done. rewrite Hget.
    cbn [mbind res_bind Py.bind].
    assert (Z.to_nat k - length results = S (Z.to_nat k - length (results ++ [d])))%nat
      as -> by (rewrite length_app; cbn [length]; lia).
    cbn [List.firstn omap list_omap]. rewrite Hd.
    destruct (Z.eqb_spec (Z.of_nat (length (results ++ [d]))) k) as [Heq|Hneq].
    + replace (Z.to_nat k - length (results ++ [d]))%nat with 0%nat by lia.
      reflexivity.
    + rewrite IH.
      * by rewrite <- app_assoc.
      * intros j Hj. apply Hall. by apply list_elem_of_further.
      * rewrite length_app in *. cbn [length] in *. lia.
Qed.

(** Without a filter, and for a bound of at least 1, the full-text search
    on a store with both indices returns the [k] nearest documents. *)
Lemma unfiltered_search_returns_k_nearest
    (docs : list Document) (query : string) (k : Z) :
  0 < k →
  search_full_text encode l2 (indexed_store encode docs) query k None
  = Ok (k_nearest_candidates encode l2 (indexed_store encode docs) query k None).
Proof.
  intros Hk. unfold search_full_text, k_nearest_candidates, indexed_store.
  cbn [full_text_index documents candidate_indices].
  set (index := _create_index (encode <$> ((λ doc, content doc) <$> docs))).
  pose proof (label_in_range docs (λ doc, content doc) (encode query)) as Hrange.
  fold index in Hrange.
  pose proof (ranked_labels index (encode query)) as Hperm.
  apply Permutation_length in Hperm. unfold index in Hperm at 2.
  rewrite create_index_labels, length_seqZ, !length_fmap, Nat2Z.id in Hperm.
  assert (List.filter
            (λ h : Z * Z, bool_decide (h.1 ∈ seqZ 0 (Z.of_nat (length docs))))
            (Faiss.ranked l2 index (encode query))
          = Faiss.ranked l2 index (encode query)) as ->.
  { apply forallb_filter_id, forallb_forall. intros h Hh.
    apply bool_decide_eq_true_2, Hrange, list_elem_of_fmap.
    exists h. split; [done|]. by apply list_elem_of_In. }
  destruct (seqZ 0 (Z.of_nat (length docs))) as [|c cs] eqn:Hc.
  { apply (f_equal length) in Hc. rewrite length_seqZ, Nat2Z.id in Hc.
    cbn [length] in Hc. rewrite Hc in Hperm.
    destruct (Faiss.ranked l2 index (encode query)); [|discriminate].
    by rewrite firstn_nil. }
  assert (length (c :: cs) = length docs) as Hlen
    by (rewrite <- Hc, length_seqZ; lia).
  rewrite Hlen. unfold Faiss.search.
  destruct (Z.leb_spec (Z.of_nat (length docs)) 0);
    [cbn [length] in Hlen; lia|].
  rewrite !Nat2Z.id.
  change ((λ h : Z * Z, h.1) <$> ?l) with (l.*1).
  rewrite take_app_length' by (by rewrite length_fmap).
  cbn [mbind res_bind Py.bind].
  rewrite collect_all; [|intros i Hi; by apply Hrange|cbn [length]; lia].
  cbn [app length]. rewrite Nat.sub_0_r.
  f_equal. rewrite <- fmap_take.
  induction (List.firstn (Z.to_nat k) (Faiss.ranked l2 index (encode query)))
    as [|h hs IHhs]; [done|].
  cbn [fmap list_fmap omap list_omap]. by rewrite IHhs.
Qed.

End Ranking.

(** ** The statements with premises, run on concrete stores *)

Lemma parsed_store_language_filter_witness :
  (∀ d, d ∈ [document_of sqli_with_cwe_header] →
        tags (metadata d) = [] ∧ languages (metadata d) = [])
  ∧ search_full_text length_encode square_distance
      (indexed_store length_encode [document_of sqli_with_cwe_header])
      "java CWE-89 query" 3 (Some {["language" := "java"]})
    = Ok [].
Proof.
  split.
  - apply (proj1 (parsed_store_language_filter_finds_nothing
                    length_encode square_distance)
             [sqli_with_cwe_header]).
    reflexivity.
  - apply (proj2 (parsed_store_language_filter_finds_nothing
                    length_encode square_distance)
             (world_with_recipe "sqli.txt" sqli_with_cwe_header.2)).
    reflexivity.
Defined.

Lemma empty_corpus_store_witness :
  ∃ s : VectorStore,
    (_load_or_build length_encode
       (world_with_recipe "xss.txt" xss_with_weakness_header.2)).1 = Ok s
    ∧ cwe_index s = None ∧ full_text_index s = None
    ∧ index_path
        (_load_or_build length_encode
           (world_with_recipe "xss.txt" xss_with_weakness_header.2)).2 = None
    ∧ (∀ cwe_id k, search_cwe length_encode square_distance s cwe_id k = Ok [])
    ∧ (∀ query k filter_metadata,
          search_full_text length_encode square_distance s query k filter_metadata
          = Ok [])
    ∧ (∀ cwe language code,
          (retrieve length_encode square_distance s cwe language code).2
          = Ok "No specific guidance found.").
Proof.
  apply (empty_corpus_store length_encode square_distance
           (world_with_recipe "xss.txt" xss_with_weakness_header.2));
    reflexivity.
Defined.

Lemma built_store_rows_witness :
  ∃ ci fi : Faiss.index Z,
    cwe_index (indexed_store length_encode [document_of sqli_with_cwe_header])
    = Some ci
    ∧ full_text_index (indexed_store length_encode [document_of sqli_with_cwe_header])
      = Some fi
    ∧ Faiss.ntotal ci = 1 ∧ Faiss.ntotal fi = 1
    ∧ ci.*1 = seqZ 0 1 ∧ fi.*1 = seqZ 0 1
    ∧ ∀ (i : nat) (d : Document),
        [document_of sqli_with_cwe_header] !! i = Some d →
        ci !! i = Some (Z.of_nat i, length_encode (cwe (metadata d)))
        ∧ fi !! i = Some (Z.of_nat i, length_encode (content d)).
Proof.
  apply (built_store_rows_match_documents length_encode
           (world_with_recipe "sqli.txt" sqli_with_cwe_header.2)
           (indexed_store length_encode [document_of sqli_with_cwe_header])).
  - reflexivity.
  - discriminate.
Defined.

Lemma snapshot_round_trip_witness :
  let w : World (V:=Z) := world_with_recipe "sqli.txt" sqli_with_cwe_header.2 in
  let s := indexed_store length_encode [document_of sqli_with_cwe_header] in
  ∃ s' : VectorStore,
    (_load_or_build length_encode (_load_or_build length_encode w).2).1 = Ok s'
    ∧ (documents s ≠ [] →
       is_snapshot (index_path (_load_or_build length_encode w).2) = true)
    ∧ (∀ cwe_id k,
          search_cwe length_encode square_distance s' cwe_id k
          = search_cwe length_encode square_distance s cwe_id k)
    ∧ (∀ query k filter_metadata,
          search_full_text length_encode square_distance s' query k filter_metadata
          = search_full_text length_encode square_distance s query k
              filter_metadata)
    ∧ (documents s ≠ [] →
       holds_snapshot_of (index_path (_load_or_build length_encode w).2) s
       ∧ ∀ listing : list (string * string),
           ∃ s'' : VectorStore,
             (_load_or_build length_encode
                (with_recipes listing (_load_or_build length_encode w).2)).1
             = Ok s''
             ∧ log (_load_or_build length_encode
                      (with_recipes listing (_load_or_build length_encode w).2)).2
               = log (_load_or_build length_encode w).2
                   ++ [(INFO, Loading_existing_vector_store)]
             ∧ (∀ cwe_id k,
                  search_cwe length_encode square_distance s'' cwe_id k
                  = search_cwe length_encode square_distance s cwe_id k)
             ∧ (∀ query k filter_metadata,
                  search_full_text length_encode square_distance s'' query k
                    filter_metadata
                  = search_full_text length_encode square_distance s query k
                      filter_metadata)).
Proof.
  intros w s.
  apply (snapshot_round_trip length_encode square_distance w s).
  reflexivity.
Defined.

Lemma filtered_search_misses_witness :
  ∃ s : VectorStore,
    (_load_or_build length_encode
       (world_with_snapshot length_encode
          [java_far_document; python_near_document])).1 = Ok s
    ∧ candidate_indices (documents s) (Some {["language" := "java"]}) = [0]
    ∧ search_full_text length_encode square_distance s "java CWE-1"
        1 (Some {["language" := "java"]}) = Ok []
    ∧ k_nearest_candidates length_encode square_distance s "java CWE-1"
        1 (Some {["language" := "java"]}) = [java_far_document].
Proof.
  apply (filtered_search_misses_nearest_candidate length_encode square_distance
           java_far_document python_near_document "java CWE-1" "java").
  - apply list_elem_of_here.
  - intros Hin. apply list_elem_of_singleton in Hin. discriminate Hin.
  - reflexivity.
Defined.



(** * Properties of the code around the claims *)

From stdpp Require Import sorting.
Import Py.
Local Open Scope Z_scope.

(** ** Texts *)

Lemma append_cons (x : ascii) (a b : string) :
  String x a +:+ b = String x (a +:+ b).
Proof. reflexivity. Qed.

Lemma append_assoc (a b c : string) : (a +:+ b) +:+ c = a +:+ b +:+ c.
Proof. induction a as [|x a IH]; [done|]. by rewrite !append_cons, IH. Qed.

Lemma append_nil_r (a : string) : a +:+ "" = a.
Proof. induction a as [|x a IH]; [done|]. by rewrite append_cons, IH. Qed.

Lemma readline_append (s : string) : (readline s).1 +:+ (readline s).2 = s.
Proof.
  induction s as [|c s IH]; [done|]. cbn [readline].
  destruct (Ascii.eqb c "010"); [done|].
  destruct (readline s) as [line rest]. cbn [fst snd] in *.
  by rewrite append_cons, IH.
Qed.

Lemma readline_first_line (s : string) :
  is_first_line (readline s).1 (readline s).2 = true.
Proof.
  induction s as [|c s IH]; [done|]. cbn [readline].
  destruct (Ascii.eqb c "010") eqn:Hc; cbn [fst snd is_first_line].
  - by rewrite Hc.
  - destruct (readline s) as [line rest]. cbn [fst snd is_first_line] in *.
    by rewrite Hc.
Qed.

Lemma universal_newlines_no_cr (raw : string) :
  no_carriage_return (universal_newlines raw) = true.
Proof.
  assert (∀ n raw, (String.length raw < n)%nat →
                   no_carriage_return (universal_newlines raw) = true) as H.
  { clear raw. induction n as [|n IH]; intros raw Hn; [lia|].
    destruct raw as [|c rest]; [done|]. cbn [universal_newlines].
    cbn [String.length] in Hn.
    destruct (Ascii.eqb c "013") eqn:Hc.
    - destruct rest as [|d rest']; [done|]. cbn [String.length] in Hn.
      destruct (Ascii.eqb d "010"); cbn [no_carriage_return negb andb Ascii.eqb];
        apply IH; cbn [String.length]; lia.
    - cbn [no_carriage_return]. rewrite Hc. apply IH. lia. }
  apply (H (S (String.length raw))). lia.
Qed.

Lemma readline_no_cr (s : string) :
  no_carriage_return s = true → no_carriage_return (readline s).2 = true.
Proof.
  induction s as [|c s IH]; [done|]. cbn [no_carriage_return readline].
  intros [_ Hs]%andb_true_iff.
  destruct (Ascii.eqb c "010"); [done|].
  destruct (readline s) as [line rest]. by apply IH.
Qed.

Lemma lstrip_nonspace (c : ascii) (s : string) :
  isspace c = false → lstrip (String c s) = String c s.
Proof. intros H. cbn [lstrip]. by rewrite H. Qed.

Lemma lstrip_head (s : string) :
  lstrip s = "" ∨ ∃ c t, lstrip s = String c t ∧ isspace c = false.
Proof.
  induction s as [|c s IH]; [by left|]. cbn [lstrip].
  destruct (isspace c) eqn:Hc; [done|]. right. by exists c, s.
Qed.

Lemma rstrip_idem (s : string) : rstrip (rstrip s) = rstrip s.
Proof.
  induction s as [|c s IH]; [done|]. cbn [rstrip].
  destruct (rstrip s) as [|d t] eqn:Hr.
  - destruct (isspace c) eqn:Hc; [done|]. cbn [rstrip]. by rewrite Hc.
  - change (rstrip (String c (String d t))) with
      (match rstrip (String d t) with
       | "" => if isspace c then "" else String c ""
       | u => String c u
       end).
    by rewrite IH.
Qed.

Lemma rstrip_head (c : ascii) (s : string) :
  isspace c = false → ∃ t, rstrip (String c s) = String c t.
Proof.
  intros Hc. cbn [rstrip]. destruct (rstrip s); [|by eexists].
  rewrite Hc. by eexists.
Qed.

Lemma strip_idem (s : string) : strip (strip s) = strip s.
Proof.
  unfold strip. destruct (lstrip_head s) as [->|(c & t & -> & Hc)]; [done|].
  destruct (rstrip_head c t Hc) as [u Hu]. rewrite Hu.
  rewrite (lstrip_nonspace c u Hc), <- Hu. apply rstrip_idem.
Qed.

Lemma rstrip_app (x y : string) :
  ends_nonspace x = true → rstrip (x +:+ y) = x +:+ rstrip y.
Proof.
  induction x as [|c x IH]; [done|]. intros Hx.
  destruct x as [|d x].
  - cbn in Hx. apply negb_true_iff in Hx.
    change (rstrip (String c y) = String c (rstrip y)). cbn [rstrip].
    destruct (rstrip y); [by rewrite Hx|done].
  - change (rstrip (String c (String d x +:+ y))
            = String c (String d x +:+ rstrip y)).
    cbn [rstrip]. rewrite IH by exact Hx. reflexivity.
Qed.

Lemma lstrip_app_space (pre s : string) :
  all_space pre = true → lstrip (pre +:+ s) = lstrip s.
Proof.
  induction pre as [|c pre IH]; [done|]. cbn [all_space].
  intros [Hc Hpre]%andb_true_iff.
  change (lstrip (String c (pre +:+ s)) = lstrip s). cbn [lstrip].
  rewrite Hc. by apply IH.
Qed.

Lemma ends_nonspace_app (x y : string) :
  ends_nonspace y = true → ends_nonspace (x +:+ y) = true.
Proof.
  intros Hy. induction x as [|c x IH]; [done|].
  change (ends_nonspace (String c (x +:+ y)) = true). cbn [ends_nonspace].
  destruct (x +:+ y) eqn:Hxy; [|done].
  destruct x; [|discriminate]. change ("" +:+ y) with y in Hxy.
  by rewrite Hxy in Hy.
Qed.

Lemma startswith_app (p s : string) : startswith (p +:+ s) p = true.
Proof.
  induction p as [|c p IH]; [by destruct s|].
  change (startswith (String c (p +:+ s)) (String c p) = true).
  cbn [startswith]. by rewrite Ascii.eqb_refl.
Qed.

Lemma startswith_drop (s p : string) :
  startswith s p = true → s = p +:+ drop (String.length p) s.
Proof.
  revert s. induction p as [|c p IH]; intros s Hs; [done|].
  destruct s as [|d s]; [discriminate|]. cbn [startswith] in Hs.
  destruct (Ascii.eqb_spec c d) as [->|]; [|discriminate].
  rewrite append_cons. cbn [String.length drop]. by rewrite <- IH.
Qed.

(** ** The parser and the constructor *)

(** X1: every document the parser returns comes from a listed [.txt]
    file. The text of the file, with its line ends translated, is a first
    line followed by the document's content: the first line ends at its
    only line break (or the file has a single line and the content is
    empty), and the content holds no carriage return. The first line
    stripped reads [cwe:] and then a tail, and the weakness id is that
    tail stripped, so that it carries no whitespace at either end. *)
Theorem parsed_document_splits_its_file
    (listing : list (string * string)) (docs : list Document) (d : Document) :
  (_parse_recipes listing).2 = Ok docs →
  d ∈ docs →
  ∃ name text line tail : string,
    (name, text) ∈ listing
    ∧ endswith name ".txt" = true
    ∧ universal_newlines text = line +:+ content d
    ∧ is_first_line line (content d) = true
    ∧ no_carriage_return (content d) = true
    ∧ strip line = "cwe:" +:+ tail
    ∧ cwe (metadata d) = strip tail
    ∧ strip (cwe (metadata d)) = cwe (metadata d).
Proof.
  rewrite parse_recipes_spec. cbn [snd]. intros [= <-].
  intros ([name text] & -> & Hf)%list_elem_of_fmap.
  apply list_elem_of_In, filter_In in Hf as [Hf Hhdr].
  apply filter_In in Hf as [Hin Htxt]. apply list_elem_of_In in Hin.
  unfold has_cwe_header in Hhdr. cbn [fst snd] in *.
  exists name, text, (readline (universal_newlines text)).1,
    (drop 4 (strip (readline (universal_newlines text)).1)).
  split_and!; try done.
  - by rewrite readline_append.
  - apply readline_first_line.
  - apply readline_no_cr, universal_newlines_no_cr.
  - by apply startswith_drop in Hhdr.
  - apply strip_idem.
Qed.

Section Constructor.
Context {V : Type}.
Variable encode : string → V.

(** X2: once a store with documents has been constructed, a fresh
    constructor returns that same store whatever the recipe directory
    has become in the meantime: the snapshot is loaded and the recipes
    are not read. *)
Theorem snapshot_outlives_recipe_changes
    (w : World (V:=V)) (s : VectorStore) (listing : list (string * string)) :
  (_load_or_build encode w).1 = Ok s →
  documents s ≠ [] →
  let w' := (_load_or_build encode w).2 in
  let changed :=
    {| recipe_dir := listing; index_path := index_path w'; log := log w' |} in
  (_load_or_build encode changed).1 = Ok s
  ∧ log (_load_or_build encode changed).2
    = log w' ++ [(INFO, Loading_existing_vector_store)].
Proof.
  intros Hs Hne. cbn zeta.
  destruct (load_or_build_again encode w s Hs) as [Hagain Hsnap].
  specialize (Hsnap Hne).
  set (w' := (_load_or_build encode w).2) in *. clearbody w'.
  unfold _load_or_build in Hagain |- *. cbn [index_path].
  destruct (index_path w') as [[|entries]|]; try discriminate.
  cbn [fst snd log logging] in Hagain |- *. done.
Qed.

(** X3: a directory at the index path that lacks one of the three
    snapshot files makes the constructor raise; nothing is parsed, built
    or written in its place. *)
Theorem incomplete_snapshot_raises
    (w : World (V:=V)) (entries : gmap string blob) :
  index_path w = Some (Directory entries) →
  entries !! "cwe.index" = None ∨ entries !! "full_text.index" = None
    ∨ entries !! "documents.npy" = None →
  (∃ e, (_load_or_build encode w).1 = Raise e)
  ∧ index_path (_load_or_build encode w).2 = Some (Directory entries)
  ∧ log (_load_or_build encode w).2
    = log w ++ [(INFO, Loading_existing_vector_store)].
Proof.
  intros Hp Hmiss. unfold _load_or_build. rewrite Hp. cbn [fst snd].
  split; [|done]. unfold read_index, np_load.
  destruct Hmiss as [->|[->| ->]].
  - by eexists.
  - destruct (entries !! "cwe.index") as [[]|]; by eexists.
  - destruct (entries !! "cwe.index") as [[]|]; try by eexists.
    destruct (entries !! "full_text.index") as [[]|]; by eexists.
Qed.

(** X4: with a regular file at the index path and at least one recipe
    with a [cwe:] header, the constructor parses the recipes and then
    raises [FileExistsError]; the file stays where it is. *)
Theorem regular_file_at_index_path_raises (w : World (V:=V)) :
  index_path w = Some Regular_file →
  List.filter has_cwe_header (glob_txt (recipe_dir w)) ≠ [] →
  (_load_or_build encode w).1 = Raise FileExistsError
  ∧ index_path (_load_or_build encode w).2 = Some Regular_file.
Proof.
  intros Hp Hne. unfold _load_or_build. rewrite Hp.
  unfold _build_indexes. rewrite parse_recipes_spec.
  cbn [recipe_dir logging index_path].
  destruct (List.filter _ _) as [|f fs]; [done|].
  cbn [fmap list_fmap]. rewrite Hp. done.
Qed.

End Constructor.

(** ** What the searches return on a store with both indices *)

Lemma omap_sublist {A B : Type} (g : A → option B) (l1 l2 : list A) :
  l1 `sublist_of` l2 → omap g l1 `sublist_of` omap g l2.
Proof.
  induction 1 as [|x l1 l2 _ IH|x l1 l2 _ IH]; cbn [omap list_omap].
  - constructor.
  - destruct (g x); [by constructor|done].
  - destruct (g x); [by constructor|done].
Qed.

Lemma omap_Forall2 {A B : Type} (g : A → option B) (Q : A → B → Prop)
    (l : list A) :
  Forall (λ x, ∃ y, g x = Some y ∧ Q x y) l → Forall2 Q l (omap g l).
Proof.
  induction 1 as [|x l (y & Hy & HQ) _ IH]; cbn [omap list_omap];
    [constructor|].
  rewrite Hy. by constructor.
Qed.

Lemma Forall2_StronglySorted {A B : Type} (Q : A → B → Prop)
    (R1 : relation A) (R2 : relation B) (l : list A) (k : list B) :
  (∀ x x' y y', Q x y → Q x' y' → R1 x x' → R2 y y') →
  Forall2 Q l k → StronglySorted R1 l → StronglySorted R2 k.
Proof.
  intros HR. induction 1 as [|x y l k HQ HF IH]; intros Hs; [constructor|].
  apply StronglySorted_inv in Hs as [Hs Hx]. constructor; [by apply IH|].
  clear IH Hs. induction HF as [|x' y' l k HQ' _ IH]; [constructor|].
  apply Forall_cons in Hx as [Hx Hl]. constructor; [by eapply HR|by apply IH].
Qed.

Section RankedSearch.
Context {V : Type}.
Variable encode : string → V.
Variable l2 : V → V → Z.

Lemma insert_hit_sorted (h : Z * Z) (hs : list (Z * Z)) :
  StronglySorted (λ a b : Z * Z, a.2 ≤ b.2) hs →
  StronglySorted (λ a b : Z * Z, a.2 ≤ b.2) (Faiss.insert_hit h hs).
Proof.
  induction hs as [|h' hs IH]; intros Hs; cbn [Faiss.insert_hit].
  - by repeat constructor.
  - pose proof Hs as [Hs' Hh']%StronglySorted_inv.
    destruct (Z.leb_spec h.2 h'.2) as [Hle|Hlt].
    + constructor; [done|]. constructor; [done|].
      eapply Forall_impl; [exact Hh'|]. intros x Hx. cbn in *. lia.
    + constructor; [by apply IH|].
      rewrite insert_hit_perm. constructor; [lia|done].
Qed.

Lemma ranked_sorted (index : Faiss.index V) (q : V) :
  StronglySorted (λ a b : Z * Z, a.2 ≤ b.2) (Faiss.ranked l2 index q).
Proof.
  induction index as [|row index IH]; [constructor|].
  unfold Faiss.ranked. cbn [foldr]. by apply insert_hit_sorted.
Qed.

Lemma ranked_perm (index : Faiss.index V) (q : V) :
  Faiss.ranked l2 index q
  ≡ₚ (λ row : Z * V, (row.1, l2 q row.2)) <$> index.
Proof.
  induction index as [|row index IH]; [done|].
  unfold Faiss.ranked. cbn [foldr]. rewrite insert_hit_perm.
  cbn [fmap list_fmap]. by apply Permutation_skip.
Qed.

Lemma lookup_rows (docs : list Document) (embeddings : list V) (pre : list Document) :
  length embeddings = length docs →
  omap (λ row : Z * V, (pre ++ docs) !! Z.to_nat row.1)
    (zip (seqZ (Z.of_nat (length pre)) (Z.of_nat (length docs))) embeddings)
  = docs.
Proof.
  revert embeddings pre.
  induction docs as [|d docs IH]; intros embeddings pre Hlen.
  - by destruct embeddings.
  - destruct embeddings as [|v embeddings]; [discriminate|].
    rewrite seqZ_cons by (cbn [length]; lia).
    cbn [zip_with omap list_omap fst]. rewrite Nat2Z.id.
    rewrite list_lookup_middle by done. f_equal.
    specialize (IH embeddings (pre ++ [d])).
    rewrite <- app_assoc, length_app in IH. cbn [app length] in IH.
    replace (Z.succ (Z.of_nat (length pre)))
      with (Z.of_nat (length pre + 1)) by lia.
    replace (Z.pred (Z.of_nat (length (d :: docs))))
      with (Z.of_nat (length docs)) by (cbn [length]; lia).
    apply IH. cbn [length] in Hlen. lia.
Qed.

(** The documents of a list of hits. *)
Lemma ranked_documents (f : Document → string) (docs : list Document)
    (q : V) (k : nat) :
  let hits := Faiss.ranked l2 (_create_index (encode <$> (f <$> docs))) q in
  let ds := omap (λ h : Z * Z, docs !! Z.to_nat h.1) (firstn k hits) in
  length ds = Nat.min k (length docs)
  ∧ ds ⊆+ docs
  ∧ StronglySorted (λ a b, l2 q (encode (f a)) ≤ l2 q (encode (f b))) ds
  ∧ (∀ d rest, ds = d :: rest →
       ∀ d', d' ∈ docs → l2 q (encode (f d)) ≤ l2 q (encode (f d')))
  ∧ Forall (λ h : Z * Z,
              0 ≤ h.1
              ∧ ∃ d, docs !! Z.to_nat h.1 = Some d ∧ getitem docs h.1 = Ok d)
      hits.
Proof.
  cbn zeta.
  set (index := _create_index (encode <$> (f <$> docs))).
  set (hits := Faiss.ranked l2 index q).
  set (g := λ h : Z * Z, docs !! Z.to_nat h.1).
  assert (Hall : omap g hits ≡ₚ docs).
  { unfold hits. rewrite ranked_perm. unfold index, _create_index, Faiss.add_with_ids.
    cbn [app]. rewrite !length_fmap.
    set (rows := zip (seqZ 0 (Z.of_nat (length docs))) (encode <$> (f <$> docs))).
    assert (omap (λ row : Z * V, docs !! Z.to_nat row.1) rows = docs) as Hrows.
    { apply (lookup_rows docs (encode <$> (f <$> docs)) []).
      by rewrite !length_fmap. }
    transitivity (omap (λ row : Z * V, docs !! Z.to_nat row.1) rows);
      [|by rewrite Hrows].
    clear Hrows. induction rows as [|row l IH]; [done|].
    cbn [fmap list_fmap omap list_omap]. unfold g at 1. cbn [fst].
    destruct (docs !! Z.to_nat row.1); by rewrite IH. }
  assert (Hhit : Forall (λ h : Z * Z,
                    ∃ d, g h = Some d
                         ∧ (0 ≤ h.1 ∧ getitem docs h.1 = Ok d
                            ∧ h.2 = l2 q (encode (f d)))) hits).
  { apply Forall_forall. intros h Hh. unfold hits in Hh.
    rewrite ranked_perm in Hh.
    apply list_elem_of_fmap in Hh as (row & -> & Hrow).
    apply list_elem_of_lookup in Hrow as [j Hj].
    unfold index in Hj. rewrite create_index_lookup, !list_lookup_fmap in Hj.
    destruct (docs !! j) as [d|] eqn:Hd; [|discriminate].
    cbn in Hj. injection Hj as <-. exists d. unfold g. cbn [fst snd].
    rewrite Nat2Z.id. split_and!; [done|lia| |done].
    by apply getitem_lookup. }
  assert (Hlen : length hits = length docs).
  { unfold hits. rewrite ranked_perm. unfold index.
    by rewrite length_fmap, create_index_length, !length_fmap. }
  assert (Htake : Forall2 (λ (h : Z * Z) d,
                     0 ≤ h.1 ∧ getitem docs h.1 = Ok d
                     ∧ h.2 = l2 q (encode (f d)))
                    (firstn k hits) (omap g (firstn k hits))).
  { apply omap_Forall2. by apply Forall_take. }
  split_and!.
  - rewrite <- (Forall2_length _ _ _ Htake), length_take. lia.
  - rewrite <- Hall. apply sublist_submseteq, omap_sublist, sublist_take.
  - eapply (Forall2_StronglySorted _ (λ a b : Z * Z, a.2 ≤ b.2));
      [|exact Htake|].
    + intros x x' y y' (_ & _ & Hx) (_ & _ & Hx') Hle. cbn beta in *. lia.
    + pose proof (ranked_sorted index q) as Hs. fold hits in Hs.
      rewrite <- (take_drop k hits) in Hs.
      by apply StronglySorted_app_1_l in Hs.
  - intros d rest Hds d' Hd'.
    destruct hits as [|h hits'] eqn:Hhits.
    { by rewrite take_nil in Hds. }
    destruct k as [|k]; [done|]. cbn [firstn omap list_omap] in Hds.
    apply Forall_cons in Hhit as [(d0 & Hg & _ & _ & Hdist) Hrest].
    rewrite Hg in Hds. injection Hds as -> _.
    rewrite <- Hall in Hd'. cbn [omap list_omap] in Hd'. rewrite Hg in Hd'.
    apply elem_of_cons in Hd' as [->|Hd']; [lia|].
    apply list_elem_of_omap in Hd' as (h' & Hh' & Hg').
    pose proof (ranked_sorted index q) as Hs. fold hits in Hs. rewrite Hhits in Hs.
    apply StronglySorted_inv in Hs as [_ Hs].
    rewrite Forall_forall in Hs, Hrest.
    specialize (Hs h' Hh'). destruct (Hrest h' Hh') as (d1 & Hg1 & _ & _ & Hd1).
    rewrite Hg' in Hg1. injection Hg1 as <-. cbn in Hs. lia.
  - eapply Forall_impl; [exact Hhit|]. intros h (d & Hg & Hpos & Hget & _).
    split; [done|]. by exists d.
Qed.

End RankedSearch.

Section SearchResults.
Context {V : Type}.
Variable encode : string → V.
Variable l2 : V → V → Z.

Lemma filter_padding (labels : list Z) (n : nat) :
  Forall (λ i, 0 ≤ i) labels →
  List.filter (λ i, negb (i =? -1)) (firstn n (labels ++ replicate n (-1)))
  = firstn n labels.
Proof.
  intros Hpos. rewrite take_app, List.filter_app.
  rewrite (filter_none _ (firstn (n - length labels) (replicate n (-1)))).
  - rewrite app_nil_r. apply forallb_filter_id, forallb_forall.
    intros i Hi%list_elem_of_In%subseteq_take.
    rewrite Forall_forall in Hpos. specialize (Hpos i Hi).
    destruct (Z.eqb_spec i (-1)); [lia|done].
  - intros i Hi%subseteq_take%elem_of_replicate. by destruct Hi as [-> _].
Qed.

Lemma for_each_getitem (docs : list Document) (l : list Z) :
  Forall (λ i, ∃ d, docs !! Z.to_nat i = Some d ∧ getitem docs i = Ok d) l →
  for_each (getitem docs) l = Ok (omap (λ i, docs !! Z.to_nat i) l).
Proof.
  induction 1 as [|i l (d & Hd & Hget) _ IH]; [done|].
  cbn [for_each omap list_omap]. by rewrite Hget, Hd, IH.
Qed.

Lemma for_each_length {A B : Type} (f : A → res B) (l : list A) (ys : list B) :
  for_each f l = Ok ys → length ys = length l.
Proof.
  revert ys. induction l as [|x l IH]; intros ys; cbn [for_each].
  - by intros [= <-].
  - destruct (f x); [|discriminate]. cbn [Py.bind].
    destruct (for_each f l); [|discriminate]. cbn [Py.bind].
    intros [= <-]. cbn [length]. by rewrite (IH _ eq_refl).
Qed.

Lemma omap_labels (docs : list Document) (hits : list (Z * Z)) :
  omap (λ i, docs !! Z.to_nat i) (hits.*1)
  = omap (λ h : Z * Z, docs !! Z.to_nat h.1) hits.
Proof.
  induction hits as [|h hits IH]; [done|].
  cbn [fmap list_fmap omap list_omap]. by rewrite IH.
Qed.

Lemma search_cwe_ranked (docs : list Document) (cwe_id : string) (k : Z) :
  0 < k →
  search_cwe encode l2 (indexed_store encode docs) cwe_id k
  = Ok (omap (λ h : Z * Z, docs !! Z.to_nat h.1)
          (firstn (Z.to_nat k)
             (Faiss.ranked l2
                (_create_index (encode <$> ((λ doc, cwe (metadata doc)) <$> docs)))
                (encode cwe_id)))).
Proof.
  intros Hk. unfold search_cwe, indexed_store. cbn [cwe_index documents].
  unfold Faiss.search. destruct (Z.leb_spec k 0); [lia|].
  cbn [mbind res_bind Py.bind].
  destruct (ranked_documents encode l2 (λ doc, cwe (metadata doc)) docs
              (encode cwe_id) 0) as (_ & _ & _ & _ & Hhits).
  change ((λ h : Z * Z, h.1) <$> ?l) with (l.*1).
  rewrite filter_padding.
  - rewrite for_each_getitem.
    + by rewrite <- fmap_take, omap_labels.
    + apply Forall_take, Forall_fmap. eapply Forall_impl; [exact Hhits|].
      by intros h [_ ?].
  - apply Forall_fmap. eapply Forall_impl; [exact Hhits|]. by intros h [? _].
Qed.

Lemma unfiltered_search_ranked (docs : list Document) (query : string) (k : Z) :
  0 < k →
  search_full_text encode l2 (indexed_store encode docs) query k None
  = Ok (omap (λ h : Z * Z, docs !! Z.to_nat h.1)
          (firstn (Z.to_nat k)
             (Faiss.ranked l2
                (_create_index (encode <$> ((λ doc, content doc) <$> docs)))
                (encode query)))).
Proof.
  intros Hk. rewrite unfiltered_search_returns_k_nearest by done.
  unfold k_nearest_candidates, indexed_store.
  cbn [full_text_index documents candidate_indices]. do 3 f_equal.
  destruct (ranked_documents encode l2 (λ doc, content doc) docs
              (encode query) 0) as (_ & _ & _ & _ & Hhits).
  apply forallb_filter_id, forallb_forall. intros h Hh%list_elem_of_In.
  rewrite Forall_forall in Hhits. destruct (Hhits h Hh) as (Hpos & d & Hd & _).
  apply bool_decide_eq_true_2, elem_of_seqZ.
  apply lookup_lt_Some in Hd. lia.
Qed.

(** X5: on a store with both indices and for a bound of at least 1,
    whenever the weakness search returns, it returns as many documents as
    the bound allows and the store has; they are documents of the store,
    none taken twice, in ascending distance of their weakness id to the
    query, and the first is as near as any document of the store; the
    padding labels of the index never show. For a bound no larger than
    the number of documents the search does return. *)
Theorem search_cwe_returns_nearest_documents
    (docs : list Document) (cwe_id : string) (k : Z) :
  0 < k →
  (k ≤ Z.of_nat (length docs) →
   ∃ ds, search_cwe encode l2 (indexed_store encode docs) cwe_id k = Ok ds)
  ∧ ∀ ds : list Document,
      search_cwe encode l2 (indexed_store encode docs) cwe_id k = Ok ds →
      length ds = Nat.min (Z.to_nat k) (length docs)
      ∧ ds ⊆+ docs
      ∧ StronglySorted
          (λ a b, weakness_distance encode l2 cwe_id a
                  ≤ weakness_distance encode l2 cwe_id b) ds
      ∧ ∀ d rest, ds = d :: rest →
          ∀ d', d' ∈ docs →
            weakness_distance encode l2 cwe_id d
            ≤ weakness_distance encode l2 cwe_id d'.
Proof.
  intros Hk. rewrite search_cwe_ranked by done. split; [by eexists|].
  intros ds [= <-].
  destruct (ranked_documents encode l2 (λ doc, cwe (metadata doc)) docs
              (encode cwe_id) (Z.to_nat k)) as (Hlen & Hsub & Hsort & Hmin & _).
  done.
Qed.

(** X6: without a filter and for a bound of at least 1, the full-text
    search on a store with both indices raises nothing and returns as
    many documents as the bound allows and the store has; they are
    documents of the store, none taken twice, in ascending distance of
    their content to the query, and the first is as near as any document
    of the store. *)
Theorem unfiltered_search_returns_nearest_documents
    (docs : list Document) (query : string) (k : Z) :
  0 < k →
  ∃ ds : list Document,
    search_full_text encode l2 (indexed_store encode docs) query k None = Ok ds
    ∧ length ds = Nat.min (Z.to_nat k) (length docs)
    ∧ ds ⊆+ docs
    ∧ StronglySorted
        (λ a b, content_distance encode l2 query a
                ≤ content_distance encode l2 query b) ds
    ∧ ∀ d rest, ds = d :: rest →
        ∀ d', d' ∈ docs →
          content_distance encode l2 query d ≤ content_distance encode l2 query d'.
Proof.
  intros Hk. eexists. split; [by apply unfiltered_search_ranked|].
  destruct (ranked_documents encode l2 (λ doc, content doc) docs
              (encode query) (Z.to_nat k)) as (Hlen & Hsub & Hsort & Hmin & _).
  done.
Qed.


End SearchResults.

Section SearchBounds.
Context {V : Type}.
Variable encode : string → V.
Variable l2 : V → V → Z.

Lemma collect_bound (docs : list Document) (candidates : list Z) (k : Z)
    (indices : list Z) (results ds : list Document) :
  Z.of_nat (length results) < k →
  collect docs candidates k indices results = Ok ds →
  Z.of_nat (length ds) ≤ k.
Proof.
  revert results. induction indices as [|i indices IH]; intros results Hlt;
    cbn [collect].
  - intros [= <-]. lia.
  - case_bool_decide; [|by apply IH].
    destruct (getitem docs i) as [d|e]; [|discriminate].
    cbn [mbind res_bind Py.bind].
    destruct (Z.eqb_spec (Z.of_nat (length (results ++ [d]))) k) as [Heq|Hne].
    + intros [= <-]. lia.
    + apply IH. rewrite length_app in *. cbn [length] in *. lia.
Qed.

(** X8: for a bound of at least 1, on every store, with or without a
    filter, neither search returns more documents than the bound. *)
Theorem searches_respect_the_bound
    (s : VectorStore (V:=V)) (query : string) (k : Z)
    (filter_metadata : option (gmap string string)) :
  0 < k →
  (∀ ds, search_cwe encode l2 s query k = Ok ds → Z.of_nat (length ds) ≤ k)
  ∧ (∀ ds, search_full_text encode l2 s query k filter_metadata = Ok ds →
           Z.of_nat (length ds) ≤ k).
Proof.
  intros Hk. split; intros ds.
  - unfold search_cwe. destruct (cwe_index s) as [index|];
      [|intros [= <-]; cbn [length]; lia].
    unfold Faiss.search. destruct (Z.leb_spec k 0); [lia|].
    cbn [mbind res_bind Py.bind]. intros Hds%for_each_length.
    rewrite Hds.
    etrans; [apply Nat2Z.inj_le, List.filter_length_le|].
    rewrite length_take. lia.
  - unfold search_full_text. destruct (full_text_index s) as [index|];
      [|intros [= <-]; cbn [length]; lia].
    destruct (candidate_indices _ _) as [|c cs];
      [intros [= <-]; cbn [length]; lia|].
    destruct (Faiss.search _ _ _ _) as [indices|e]; [|discriminate].
    cbn [mbind res_bind Py.bind]. apply collect_bound. cbn [length]. lia.
Qed.

Lemma collect_unbounded (docs : list Document) (candidates : list Z) (k : Z)
    (indices : list Z) (results : list Document) :
  k ≤ 0 →
  Forall (λ i, i ∈ candidates
               ∧ ∃ d, docs !! Z.to_nat i = Some d ∧ getitem docs i = Ok d)
    indices →
  collect docs candidates k indices results
  = Ok (results ++ omap (λ i, docs !! Z.to_nat i) indices).
Proof.
  intros Hk Hall. revert results.
  induction Hall as [|i indices (Hi & d & Hd & Hget) _ IH]; intros results;
    cbn [collect omap list_omap].
  - by rewrite app_nil_r.
  - rewrite bool_decide_eq_true_2 by done. rewrite Hget, Hd.
    cbn [mbind res_bind Py.bind].
    destruct (Z.eqb_spec (Z.of_nat (length (results ++ [d]))) k) as [Heq|_].
    + rewrite length_app in Heq. cbn [length] in Heq. lia.
    + by rewrite IH, <- app_assoc.
Qed.

(** X9: a bound of 0 or less does not mean no result: without a filter,
    the full-text search on a store with both indices then returns every
    document of the store, each once. *)
Theorem unbounded_search_returns_every_document
    (docs : list Document) (query : string) (k : Z) :
  k ≤ 0 →
  ∃ ds : list Document,
    search_full_text encode l2 (indexed_store encode docs) query k None = Ok ds
    ∧ ds ≡ₚ docs.
Proof.
  intros Hk. unfold search_full_text, indexed_store.
  cbn [full_text_index documents candidate_indices].
  destruct (ranked_documents encode l2 (λ doc, content doc) docs
              (encode query) (length docs)) as (Hlen & Hsub & _ & _ & Hhits).
  set (hits := Faiss.ranked l2 _ _) in *.
  assert (length hits = length docs) as Hn.
  { unfold hits. rewrite ranked_perm.
    by rewrite length_fmap, create_index_length, !length_fmap. }
  rewrite take_ge in Hlen, Hsub by lia.
  destruct (seqZ 0 (Z.of_nat (length docs))) as [|c cs] eqn:Hc.
  { exists []. split; [done|].
    apply (f_equal length) in Hc. rewrite length_seqZ in Hc.
    destruct docs; [done|]. cbn [length] in Hc. lia. }
  assert (length (c :: cs) = length docs) as Hcs
    by (rewrite <- Hc, length_seqZ; lia).
  rewrite Hcs. unfold Faiss.search.
  destruct (Z.leb_spec (Z.of_nat (length docs)) 0);
    [cbn [length] in Hcs; lia|].
  cbn [mbind res_bind Py.bind]. rewrite Nat2Z.id.
  change ((λ h : Z * Z, h.1) <$> ?l) with (l.*1).
  rewrite take_app_length' by (by rewrite length_fmap).
  rewrite collect_unbounded; [|done|].
  - eexists. split; [reflexivity|]. cbn [app]. rewrite omap_labels.
    apply submseteq_length_Permutation; [done|]. fold hits. lia.
  - apply Forall_fmap. eapply Forall_impl; [exact Hhits|].
    intros h (Hpos & d & Hd & Hget). split; [|by exists d].
    rewrite <- Hc. apply elem_of_seqZ. apply lookup_lt_Some in Hd. cbn. lia.
Qed.

End SearchBounds.

(** ** The extractor and the retriever *)

Lemma nonempty_append_l (a b : string) :
  nonempty a = true → nonempty (a +:+ b) = true.
Proof. by destruct a. Qed.

Lemma nonempty_join (sep a : string) (rest : list string) :
  nonempty a = true → nonempty (join sep (a :: rest)) = true.
Proof.
  intros Ha. destruct rest; cbn [join]; [done|]. by apply nonempty_append_l.
Qed.

Lemma extract_nonempty (content : string) :
  nonempty (_extract_focused_context content) = true.
Proof.
  unfold _extract_focused_context. cbn zeta.
  generalize (from_option strip "" (rest_of_line <$> find_after "name: " content)).
  generalize (from_option strip ""
                (lazy_block <$> find_after "Short Description:" content)).
  generalize (from_option strip ""
                (lazy_block <$> find_after "Secure Coding Checklist:" content)).
  generalize (from_option strip ""
                ((λ tail, "Sample Fix Idea" +:+ tail)
                   <$> find_after "Sample Fix Idea" content)).
  intros fix_idea checklist description name.
  destruct (nonempty name) eqn:Hn, (nonempty description) eqn:Hd,
    (nonempty checklist) eqn:Hc, (nonempty fix_idea) eqn:Hf;
    cbn [app]; try reflexivity; by apply nonempty_join.
Qed.

Lemma join_snoc (sep x : string) (l : list string) :
  ∃ before, join sep (l ++ [x]) = before +:+ x.
Proof.
  induction l as [|a l [before IH]]; [by exists ""|].
  destruct l as [|b l].
  - exists (a +:+ sep). cbn [app join]. by rewrite append_assoc.
  - exists (a +:+ sep +:+ before).
    change (join sep ((a :: b :: l) ++ [x]))
      with (a +:+ sep +:+ join sep ((b :: l) ++ [x])).
    by rewrite IH, !append_assoc.
Qed.

(** X10: the extractor never returns the empty text, and neither does
    [retrieve], on any store and for any arguments. *)
Theorem retrieve_never_returns_empty_text :
  (∀ content : string, _extract_focused_context content ≠ "")
  ∧ (∀ (V : Type) (encode : string → V) (l2 : V → V → Z)
       (s : VectorStore (V:=V)) (cwe language code : string),
       (retrieve encode l2 s cwe language code).2 ≠ Ok "").
Proof.
  assert (∀ content, _extract_focused_context content ≠ "") as Hextract.
  { intros content Heq. pose proof (extract_nonempty content) as Hne.
    by rewrite Heq in Hne. }
  assert (∀ raw, focused raw ≠ "") as Hfocused.
  { intros raw. unfold focused. by destruct (nonempty raw). }
  split; [done|]. intros V encode l2 s cwe language code. unfold retrieve.
  destruct (search_cwe _ _ _ _ _) as [[|hit hits]|e]; cbn [snd];
    [|intros [= Heq]; by eapply Hfocused|done].
  destruct (search_full_text _ _ _ _ _ _) as [[|hit hits]|e]; cbn [snd];
    [intros [= Heq]; by eapply Hfocused..|done].
Qed.

(** X11: when the content holds the marker [Sample Fix Idea], the
    extracted context ends with the label [**Fix Idea:**], a line break,
    the marker and all that follows its first occurrence, up to the end
    of the content, less the whitespace at the end. *)
Theorem extract_fix_idea_runs_to_the_end (content tail : string) :
  find_after "Sample Fix Idea" content = Some tail →
  ∃ before : string,
    _extract_focused_context content
    = before +:+ "**Fix Idea:**" +:+ line_break
        +:+ "Sample Fix Idea" +:+ rstrip tail.
Proof.
  intros Hfind. unfold _extract_focused_context. cbn zeta. rewrite Hfind.
  cbn [fmap option_fmap option_map from_option].
  assert (strip ("Sample Fix Idea" +:+ tail) = "Sample Fix Idea" +:+ rstrip tail)
    as ->.
  { unfold strip. rewrite append_cons, lstrip_nonspace by done.
    rewrite <- append_cons. by apply rstrip_app. }
  change (nonempty ("Sample Fix Idea" +:+ rstrip tail)) with true. cbn iota.
  set (part := "**Fix Idea:**" +:+ String newline ("Sample Fix Idea" +:+ rstrip tail)).
  match goal with |- context [?l ++ [part]] => set (parts := l) end.
  destruct (join_snoc (String newline (String newline "")) part parts)
    as [before Hjoin].
  exists before.
  transitivity (join (String newline (String newline "")) (parts ++ [part]));
    [by destruct parts|by rewrite Hjoin].
Qed.

Section RetrieveOnStores.
Context {V : Type}.
Variable encode : string → V.
Variable l2 : V → V → Z.

(** X12: on a store with both indices and at least one document, what
    [retrieve] does depends on the weakness id alone: for any two
    languages and any two code strings it makes the same single call and
    returns the same context. *)
Theorem retrieve_ignores_language_and_code
    (docs : list Document) (cwe language code language' code' : string) :
  docs ≠ [] →
  retrieve encode l2 (indexed_store encode docs) cwe language code
  = retrieve encode l2 (indexed_store encode docs) cwe language' code'
  ∧ (retrieve encode l2 (indexed_store encode docs) cwe language code).1
    = [Call_search_cwe cwe 1].
Proof.
  intros Hne. unfold retrieve.
  by destruct (search_cwe_hits encode l2 docs cwe Hne) as (d & _ & ->).
Qed.

(** X13: on every store that [_build_indexes] returns, [retrieve] raises
    nothing, whatever its arguments; it returns the sentinel when the
    store has no document, and otherwise the context of a document of the
    store, after the weakness search alone. *)
Theorem retrieve_on_built_store_never_raises
    (w : World (V:=V)) (s : VectorStore) (cwe language code : string) :
  (_build_indexes encode w).1 = Ok s →
  (documents s = [] ∧
   (retrieve encode l2 s cwe language code).2 = Ok "No specific guidance found.")
  ∨ (∃ d, d ∈ documents s
          ∧ retrieve encode l2 s cwe language code
            = ([Call_search_cwe cwe 1], Ok (focused (content d)))).
Proof.
  intros Hb. destruct (build_indexes_store encode w s Hb) as [[_ ->]|[Hne ->]].
  - by left.
  - right. destruct (search_cwe_hits encode l2 _ cwe Hne) as (d & Hd & Hs).
    exists d. split; [done|]. unfold retrieve. by rewrite Hs.
Qed.

End RetrieveOnStores.

(** ** The reply of the model ([ollama._parse_response_json]) *)

Lemma lower_append (a b : string) : lower (a +:+ b) = lower a +:+ lower b.
Proof. induction a as [|c a IH]; [done|]. rewrite append_cons. cbn [lower]. by rewrite IH. Qed.

Lemma lower_length (s : string) : String.length (lower s) = String.length s.
Proof. induction s as [|c s IH]; [done|]. cbn [lower String.length]. by rewrite IH. Qed.

Lemma drop_append_length (a b : string) : drop (String.length a) (a +:+ b) = b.
Proof.
  induction a as [|c a IH]; [reflexivity|].
  rewrite append_cons. cbn [String.length drop]. exact IH.
Qed.

Lemma split_first_at_sep (sep s : string) :
  startswith s sep = true → split_first sep s = "".
Proof. intros H. destruct s; cbn [split_first]; by rewrite H. Qed.

Lemma split_first_no_backquote (body tail : string) :
  no_backquote body = true → split_first fence (body +:+ fence +:+ tail) = body.
Proof.
  induction body as [|c body IH];
    [intros _; apply split_first_at_sep, (startswith_app fence tail)|].
  cbn [no_backquote].
  intros [Hc Hbody]%andb_true_iff. apply negb_true_iff in Hc.
  rewrite append_cons. cbn [split_first startswith fence].
  rewrite Ascii.eqb_sym, Hc. by rewrite IH.
Qed.

Lemma not_json_by_first_letter (body tail : string) :
  startswith (lower (body +:+ fence)) "j" = false →
  startswith (lower (body +:+ fence +:+ tail)) "json" = false.
Proof.
  destruct body as [|c body]; [intros _; reflexivity|].
  rewrite !append_cons. cbn [lower startswith].
  destruct (Ascii.eqb "j" (lower_char c)); [|done].
  by destruct (lower (body +:+ fence)).
Qed.

Section Reply.
Context {R : Type}.
Variable json_loads : string → R.

(** X14: a reply wrapped in a code fence is unwrapped before it is
    parsed: after leading whitespace, an opening fence, an optional
    [json] tag in any case, a body without backquotes, a closing fence
    and any text at all, [json.loads] is given the body stripped, and the
    text after the closing fence is dropped. Without the tag, the body
    must not begin with the letter j. *)
Theorem fenced_reply_is_unwrapped (pre tag body post : string) :
  all_space pre = true →
  no_backquote body = true →
  lower tag = "json"
    ∨ (tag = "" ∧ startswith (lower (body +:+ fence)) "j" = false) →
  _parse_response_json json_loads
    (pre +:+ fence +:+ tag +:+ body +:+ fence +:+ post)
  = json_loads (strip body).
Proof.
  intros Hpre Hbody Htag. unfold _parse_response_json. cbn zeta.
  assert (strip (pre +:+ fence +:+ tag +:+ body +:+ fence +:+ post)
          = fence +:+ tag +:+ body +:+ fence +:+ rstrip post) as ->.
  { unfold strip. rewrite lstrip_app_space by done.
    assert (∀ x, lstrip (fence +:+ x) = fence +:+ x) as -> by reflexivity.
    replace (fence +:+ tag +:+ body +:+ fence +:+ post)
      with ((fence +:+ tag +:+ body +:+ fence) +:+ post)
      by (by rewrite !append_assoc).
    rewrite rstrip_app; [by rewrite !append_assoc|].
    by do 3 apply ends_nonspace_app. }
  rewrite startswith_app.
  change (drop 3 (fence +:+ ?x)) with x.
  assert ((if startswith (lower (tag +:+ body +:+ fence +:+ rstrip post)) "json"
           then drop 4 (tag +:+ body +:+ fence +:+ rstrip post)
           else tag +:+ body +:+ fence +:+ rstrip post)
          = body +:+ fence +:+ rstrip post) as ->.
  { destruct Htag as [Htag|[-> Hj]].
    - rewrite lower_append, Htag, startswith_app.
      replace 4%nat with (String.length tag)
        by (by rewrite <- lower_length, Htag).
      apply drop_append_length.
    - change ("" +:+ ?x) with x. by rewrite not_json_by_first_letter. }
  by rewrite split_first_no_backquote.
Qed.

End Reply.

(** ** The prompt ([main.build_user_prompt]) *)

(** X15: whitespace around the code does not reach the prompt: a payload
    and the same payload with its code stripped give the same prompt. *)
Theorem prompt_ignores_whitespace_around_code
    (payload : gmap string string) (context code : string) :
  build_user_prompt (<["code" := code]> payload) context
  = build_user_prompt (<["code" := strip code]> payload) context.
Proof.
  unfold build_user_prompt, dict_get.
  rewrite !lookup_insert_eq, !(lookup_insert_ne _ "code") by done.
  by rewrite strip_idem.
Qed.

(** ** The metrics file ([toolkit.log_metrics]) *)

Lemma log_all_appends (calls : list metrics_call) (path content : string)
    (w : MetricsWorld) :
  nonempty path = true →
  files w !! path = Some (Fs_file content) →
  log_all calls (Some path) w
  = (None,
     {| files := <[path := Fs_file (content +:+ csv_rows calls)]> (files w);
        metrics_log := metrics_log w ++ metrics_records calls |}).
Proof.
  intros Hpath. revert content w.
  induction calls as [|[[[now a] b] c] calls IH]; intros content w Hfile.
  - cbn [log_all csv_rows metrics_records fmap list_fmap].
    rewrite append_nil_r, app_nil_r, insert_id by done. by destruct w.
  - cbn [log_all]. unfold log_metrics. rewrite Hpath. cbn [negb files].
    rewrite Hfile. erewrite IH; [|cbn [files]; apply lookup_insert_eq].
    cbn [files metrics_log csv_rows metrics_records fmap list_fmap].
    by rewrite insert_insert_eq, append_assoc, <- app_assoc.
Qed.


(** Under a directory that does not exist, or under a regular file, the
    first call raises and writes nothing. *)
Lemma log_metrics_without_parent_directory :
  log_metrics noon 12 34 560 (Some "out/logs.csv") no_files
  = (Some Open_FileNotFoundError,
     {| files := files no_files;
        metrics_log :=
          metrics_log no_files
            ++ [{| tokens_in := 12; tokens_out := 34; latency := 560 |}] |})
  ∧ (log_metrics noon 12 34 560 (Some "logs.csv/day/1.csv") empty_log_file).1
    = Some Open_NotADirectoryError.
Proof. split; reflexivity. Qed.

(** X17: on a path where a file is, whatever it holds, a sequence of
    calls only appends: the file keeps its content, gets no header, and
    gains one row per call, in order; every other path is left as it
    was. *)
Theorem metrics_file_is_appended_to
    (calls : list metrics_call) (path content : string) (w : MetricsWorld) :
  nonempty path = true →
  files w !! path = Some (Fs_file content) →
  ∃ w' : MetricsWorld,
    log_all calls (Some path) w = (None, w')
    ∧ files w' !! path = Some (Fs_file (content +:+ csv_rows calls))
    ∧ (∀ other, other ≠ path → files w' !! other = files w !! other)
    ∧ metrics_log w' = metrics_log w ++ metrics_records calls.
Proof.
  intros Hpath Hfile. eexists. split; [by apply log_all_appends|].
  cbn [files metrics_log]. split_and!; [apply lookup_insert_eq| |done].
  intros other Hother. by apply lookup_insert_ne.
Qed.

(** ** The model preselected by the interface ([streamlit_app]) *)

Lemma list_index_elem (l : list string) (x : string) :
  x ∈ l → ∃ i, list_index l x = Some i ∧ l !! i = Some x.
Proof.
  induction l as [|y l IH]; [by intros ?%elem_of_nil|].
  intros Hx. cbn [list_index]. destruct (String.eqb_spec y x) as [->|Hne].
  - by exists O.
  - apply elem_of_cons in Hx as [->|Hx]; [done|].
    destruct (IH Hx) as (i & -> & Hi). by exists (S i).
Qed.

(** X18: computing the index of the preselected model never raises; when
    models are available the index points at the default model, which is
    [gemma3:1b] when it is listed and the first model otherwise; when
    none is available the index is 0 and there is no default. *)
Theorem selectbox_index_points_at_default (available_models : list string) :
  ∃ i : nat,
    selectbox_index available_models = Some i
    ∧ (available_models ≠ [] →
       available_models !! i = default_model available_models)
    ∧ ("gemma3:1b" ∈ available_models →
       available_models !! i = Some "gemma3:1b")
    ∧ ("gemma3:1b" ∉ available_models →
       default_model available_models = head available_models)
    ∧ (available_models = [] → i = O ∧ default_model available_models = None).
Proof.
  unfold selectbox_index, default_model.
  case_bool_decide as Hin.
  - destruct (list_index_elem _ _ Hin) as (i & Hi & Hlook).
    exists i. cbn [nonempty]. rewrite Hi. split_and!; try done.
    by intros ->; apply elem_of_nil in Hin.
  - destruct available_models as [|m models].
    + exists O. by split_and!.
    + destruct (nonempty m) eqn:Hm.
      * destruct (list_index_elem (m :: models) m) as (i & Hi & Hlook);
          [apply list_elem_of_here|].
        exists i. rewrite Hi. by split_and!.
      * exists O. by split_and!.
Qed.

(** ** Rebuilding the store ([test_faiss.rebuild_store]) *)

Section Rebuilding.
Context {V : Type}.
Variable encode : string → V.



End Rebuilding.

(** ** The statements above, run on concrete inputs *)

Lemma parsed_document_splits_witness :
  ∃ name text line tail : string,
    (name, text) ∈ [sqli_with_cwe_header]
    ∧ endswith name ".txt" = true
    ∧ universal_newlines text = line +:+ content sqli_document
    ∧ is_first_line line (content sqli_document) = true
    ∧ no_carriage_return (content sqli_document) = true
    ∧ strip line = "cwe:" +:+ tail
    ∧ cwe (metadata sqli_document) = strip tail
    ∧ strip (cwe (metadata sqli_document)) = cwe (metadata sqli_document).
Proof.
  apply (parsed_document_splits_its_file [sqli_with_cwe_header] [sqli_document]).
  - reflexivity.
  - apply list_elem_of_here.
Defined.

Lemma snapshot_outlives_witness :
  let w' := (_load_or_build length_encode sqli_world).2 in
  let changed := {| recipe_dir := []; index_path := index_path w'; log := log w' |} in
  (_load_or_build length_encode changed).1
  = Ok (indexed_store length_encode [sqli_document])
  ∧ log (_load_or_build length_encode changed).2
    = log w' ++ [(INFO, Loading_existing_vector_store)].
Proof.
  apply (snapshot_outlives_recipe_changes length_encode sqli_world
           (indexed_store length_encode [sqli_document]) []).
  - reflexivity.
  - discriminate.
Defined.

Lemma incomplete_snapshot_witness :
  (∃ e, (_load_or_build length_encode empty_directory_world).1 = Raise e)
  ∧ index_path (_load_or_build length_encode empty_directory_world).2
    = Some (Directory ∅)
  ∧ log (_load_or_build length_encode empty_directory_world).2
    = [(INFO, Loading_existing_vector_store)].
Proof.
  apply (incomplete_snapshot_raises length_encode empty_directory_world ∅).
  - reflexivity.
  - left. reflexivity.
Defined.

Lemma regular_file_witness :
  (_load_or_build length_encode blocked_world).1 = Raise FileExistsError
  ∧ index_path (_load_or_build length_encode blocked_world).2 = Some Regular_file.
Proof.
  apply (regular_file_at_index_path_raises length_encode blocked_world).
  - reflexivity.
  - discriminate.
Defined.

Lemma search_cwe_nearest_witness :
  (5 ≤ Z.of_nat (length [java_far_document; python_near_document]) →
   ∃ ds,
     search_cwe length_encode square_distance
       (indexed_store length_encode [java_far_document; python_near_document])
       "CWE-89" 5 = Ok ds)
  ∧ ∀ ds : list Document,
      search_cwe length_encode square_distance
        (indexed_store length_encode [java_far_document; python_near_document])
        "CWE-89" 5 = Ok ds →
      length ds = Nat.min (Z.to_nat 5) 2
      ∧ ds ⊆+ [java_far_document; python_near_document]
      ∧ StronglySorted
          (λ a b, weakness_distance length_encode square_distance "CWE-89" a
                  ≤ weakness_distance length_encode square_distance "CWE-89" b) ds
      ∧ ∀ d rest, ds = d :: rest →
          ∀ d', d' ∈ [java_far_document; python_near_document] →
            weakness_distance length_encode square_distance "CWE-89" d
            ≤ weakness_distance length_encode square_distance "CWE-89" d'.
Proof.
  apply (search_cwe_returns_nearest_documents length_encode square_distance
           [java_far_document; python_near_document] "CWE-89" 5).
  reflexivity.
Defined.

Lemma unfiltered_search_nearest_witness :
  ∃ ds : list Document,
    search_full_text length_encode square_distance
      (indexed_store length_encode [java_far_document; python_near_document])
      "java CWE-1" 1 None = Ok ds
    ∧ length ds = Nat.min (Z.to_nat 1) 2
    ∧ ds ⊆+ [java_far_document; python_near_document]
    ∧ StronglySorted
        (λ a b, content_distance length_encode square_distance "java CWE-1" a
                ≤ content_distance length_encode square_distance "java CWE-1" b) ds
    ∧ ∀ d rest, ds = d :: rest →
        ∀ d', d' ∈ [java_far_document; python_near_document] →
          content_distance length_encode square_distance "java CWE-1" d
          ≤ content_distance length_encode square_distance "java CWE-1" d'.
Proof.
  apply (unfiltered_search_returns_nearest_documents length_encode square_distance
           [java_far_document; python_near_document] "java CWE-1" 1).
  reflexivity.
Defined.


Lemma searches_respect_the_bound_witness :
  (∀ ds,
     search_cwe length_encode square_distance
       (indexed_store length_encode [java_far_document; python_near_document])
       "CWE-89" 1 = Ok ds → Z.of_nat (length ds) ≤ 1)
  ∧ (∀ ds,
       search_full_text length_encode square_distance
         (indexed_store length_encode [java_far_document; python_near_document])
         "CWE-89" 1 None = Ok ds → Z.of_nat (length ds) ≤ 1).
Proof.
  apply (searches_respect_the_bound length_encode square_distance
           (indexed_store length_encode [java_far_document; python_near_document])
           "CWE-89" 1 None).
  reflexivity.
Defined.

Lemma unbounded_search_witness :
  ∃ ds : list Document,
    search_full_text length_encode square_distance
      (indexed_store length_encode [java_far_document; python_near_document])
      "java CWE-1" 0 None = Ok ds
    ∧ ds ≡ₚ [java_far_document; python_near_document].
Proof.
  apply (unbounded_search_returns_every_document length_encode square_distance
           [java_far_document; python_near_document] "java CWE-1" 0).
  reflexivity.
Defined.

Lemma extract_fix_idea_witness :
  ∃ before : string,
    _extract_focused_context scenario_a_body
    = before +:+ "**Fix Idea:**" +:+ line_break +:+ "Sample Fix Idea"
        +:+ rstrip (String newline ("Use prepared statements." +:+ line_break)).
Proof.
  apply (extract_fix_idea_runs_to_the_end scenario_a_body
           (String newline ("Use prepared statements." +:+ line_break))).
  reflexivity.
Defined.

Lemma retrieve_ignores_witness :
  retrieve length_encode square_distance
    (indexed_store length_encode [java_far_document; python_near_document])
    "CWE-89" "java" "x = 1"
  = retrieve length_encode square_distance
      (indexed_store length_encode [java_far_document; python_near_document])
      "CWE-89" "python" "y = 2"
  ∧ (retrieve length_encode square_distance
       (indexed_store length_encode [java_far_document; python_near_document])
       "CWE-89" "java" "x = 1").1
    = [Call_search_cwe "CWE-89" 1].
Proof.
  apply (retrieve_ignores_language_and_code length_encode square_distance
           [java_far_document; python_near_document]
           "CWE-89" "java" "x = 1" "python" "y = 2").
  discriminate.
Defined.

Lemma retrieve_on_built_store_witness :
  (documents (indexed_store length_encode [sqli_document]) = [] ∧
   (retrieve length_encode square_distance
      (indexed_store length_encode [sqli_document]) "CWE-1" "go" "").2
   = Ok "No specific guidance found.")
  ∨ (∃ d, d ∈ documents (indexed_store length_encode [sqli_document])
          ∧ retrieve length_encode square_distance
              (indexed_store length_encode [sqli_document]) "CWE-1" "go" ""
            = ([Call_search_cwe "CWE-1" 1], Ok (focused (content d)))).
Proof.
  apply (retrieve_on_built_store_never_raises length_encode square_distance
           sqli_world (indexed_store length_encode [sqli_document])
           "CWE-1" "go" "").
  reflexivity.
Defined.

Lemma fenced_reply_witness :
  _parse_response_json (λ cleaned : string, cleaned)
    ("  " +:+ fence +:+ "JSON" +:+ fenced_body +:+ fence +:+ " Done.")
  = strip fenced_body.
Proof.
  apply (fenced_reply_is_unwrapped (λ cleaned : string, cleaned)
           "  " "JSON" fenced_body " Done.").
  - reflexivity.
  - reflexivity.
  - left. reflexivity.
Defined.


Lemma metrics_append_witness :
  ∃ w' : MetricsWorld,
    log_all [(noon, 12, 34, 560)] (Some "logs.csv") empty_log_file = (None, w')
    ∧ files w' !! "logs.csv"
      = Some (Fs_file ("" +:+ csv_rows [(noon, 12, 34, 560)]))
    ∧ (∀ other, other ≠ "logs.csv" →
                files w' !! other = files empty_log_file !! other)
    ∧ metrics_log w'
      = metrics_log empty_log_file ++ metrics_records [(noon, 12, 34, 560)].
Proof.
  apply (metrics_file_is_appended_to [(noon, 12, 34, 560)] "logs.csv" ""
           empty_log_file).
  - reflexivity.
  - reflexivity.
Defined.

